(** * LabelSpy Telegram bot: a shallow embedding of [telegram_bot/bot.py]

    The development follows the Python module top to bottom: the values the
    handlers manipulate, the [analyses] table, the two gateway wrappers
    [ocr_recognize] and [analyze_with_gemini], the handlers [handle_photo],
    [button_callback] and [history], and the handler registration of [main].

    Everything outside the module (the HTTP providers, [json.loads],
    [json.dumps], the clock, the storage engine's health) is an input, gathered
    in the record [env]: one [env] describes how the outside world answers
    during one update.

    Two things are taken for granted throughout: a call to the chat transport
    ([reply_text], [edit_message_text], [send_action], [query.answer])
    returns, and an update is a new message of a user or a press on a
    button. *)

From stdpp Require Import gmap strings list pretty.
From Stdlib Require Import ZArith Ascii String Floats Sorting.Sorted.

Set Warnings "-register-all".

Open Scope string_scope.
Open Scope list_scope.
Open Scope Z_scope.

(** ** Python values *)

(** The values that flow through the handlers are those [json.loads] can
    produce, together with [str] and [None]. A [dict] keeps its insertion
    order, so it is an association list. *)
Inductive pyval : Type :=
| PyNone
| PyBool (b : bool)
| PyInt (n : Z)
| PyFloat (f : float)
| PyStr (s : string)
| PyList (l : list pyval)
| PyDict (d : list (string * pyval)).

(** The exceptions the module can meet. *)
Inductive exn : Type :=
| TypeError
| AttributeError
| KeyError
| IndexError
| JSONDecodeError
| ClientError
| OSError
| OverflowError
| UnicodeEncodeError
| SqliteError.

(** A computation either returns or raises. *)
Inductive outcome (A : Type) : Type :=
| Ret (a : A)
| Raise (e : exn).
Arguments Ret {A} a.
Arguments Raise {A} e.

#[export] Instance outcome_ret : MRet outcome := fun A a => Ret a.

#[export] Instance outcome_bind : MBind outcome := fun A B k m =>
  match m with
  | Ret a => k a
  | Raise e => Raise e
  end.

(** *** Strings

    A Python [str] is a sequence of code points; it is represented by its
    UTF-8 encoding, and the operations that count code points ([len], slices,
    iteration) skip the continuation bytes [10xxxxxx]. A [str] may hold a lone
    surrogate ([json.loads] makes one from an escape such as [\ud800]); it is
    written with the three bytes the same scheme gives it, [ED A0..BF xx],
    which no UTF-8 text contains. *)

Definition is_continuation (a : ascii) : bool :=
  let n := N_of_ascii a in ((128 <=? n) && (n <? 192))%N.

(** Whether [s] holds a surrogate, so that [s.encode('utf-8')] raises. *)
Fixpoint has_surrogate (s : string) : bool :=
  match s with
  | String a (String b _ as r) =>
      ((N_of_ascii a =? 237) && (160 <=? N_of_ascii b) && (N_of_ascii b <? 192))%N
      || has_surrogate r
  | _ => false
  end.

(** [len(s)] *)
Fixpoint py_len (s : string) : nat :=
  match s with
  | EmptyString => O
  | String a r => if is_continuation a then py_len r else S (py_len r)
  end.

(** [s[:n]] *)
Fixpoint py_prefix (n : nat) (s : string) : string :=
  match s with
  | EmptyString => EmptyString
  | String a r =>
      if is_continuation a then String a (py_prefix n r)
      else match n with
           | O => EmptyString
           | S m => String a (py_prefix m r)
           end
  end.

(** The continuation bytes at the head of a string, and what follows them. *)
Fixpoint split_continuation (s : string) : string * string :=
  match s with
  | String a r =>
      if is_continuation a
      then let '(c, rest) := split_continuation r in (String a c, rest)
      else (EmptyString, s)
  | EmptyString => (EmptyString, EmptyString)
  end.

(** [list(s)]: the one-character strings of [s]. The fuel is the number of
    bytes, which bounds the number of characters. *)
Fixpoint py_chars_fuel (fuel : nat) (s : string) : list string :=
  match fuel, s with
  | S fuel', String a r =>
      let '(c, rest) := split_continuation r in
      String a c :: py_chars_fuel fuel' rest
  | _, _ => []
  end.

Definition py_chars (s : string) : list string :=
  py_chars_fuel (String.length s) s.

(** *** Truth value, [dict.get], iteration, indexing *)

(** [bool(v)], as used by [not v] and [v or w]. *)
Definition py_truthy (v : pyval) : bool :=
  match v with
  | PyNone => false
  | PyBool b => b
  | PyInt n => negb (n =? 0)
  | PyFloat f => negb (PrimFloat.eqb f 0%float)
  | PyStr s => negb (String.eqb s EmptyString)
  | PyList l => match l with [] => false | _ => true end
  | PyDict d => match d with [] => false | _ => true end
  end.

Fixpoint assoc_get (d : list (string * pyval)) (k : string) : option pyval :=
  match d with
  | [] => None
  | (k', v) :: d' => if String.eqb k' k then Some v else assoc_get d' k
  end.

(** [v.get(k, dflt)]: only a [dict] has the method. *)
Definition py_get (v : pyval) (k : string) (dflt : pyval) : outcome pyval :=
  match v with
  | PyDict d => Ret (default dflt (assoc_get d k))
  | _ => Raise AttributeError
  end.

(** [iter(v)]: a list yields its items, a [str] its characters, a [dict] its
    keys; nothing else in [pyval] is iterable. *)
Definition py_iter (v : pyval) : outcome (list pyval) :=
  match v with
  | PyList l => Ret l
  | PyStr s => Ret (PyStr <$> py_chars s)
  | PyDict d => Ret ((λ kv, PyStr kv.1) <$> d)
  | _ => Raise TypeError
  end.

(** [v[0]] *)
Definition py_index0 (v : pyval) : outcome pyval :=
  match v with
  | PyList (x :: _) => Ret x
  | PyList [] => Raise IndexError
  | PyStr s => match py_chars s with
               | c :: _ => Ret (PyStr c)
               | [] => Raise IndexError
               end
  | PyDict _ => Raise KeyError
  | _ => Raise TypeError
  end.

(** [v[:n]] *)
Definition py_slice (n : nat) (v : pyval) : outcome pyval :=
  match v with
  | PyList l => Ret (PyList (take n l))
  | PyStr s => Ret (PyStr (py_prefix n s))
  | _ => Raise TypeError
  end.

(** [sep.join(items)]: every item must be a [str]. *)
Fixpoint str_join (sep : string) (items : list pyval) : outcome string :=
  match items with
  | [] => Ret EmptyString
  | [PyStr s] => Ret s
  | PyStr s :: rest => r ← str_join sep rest; Ret (s +:+ sep +:+ r)
  | _ :: _ => Raise TypeError
  end.

(** [sep.join(v) or alt] *)
Definition join_or (sep : string) (v : pyval) (alt : string) : outcome string :=
  items ← py_iter v;
  joined ← str_join sep items;
  Ret (if String.eqb joined EmptyString then alt else joined).

(** Monadic left fold: a [for] loop that updates an accumulator and may
    raise. *)
Fixpoint for_each {A B} (items : list A) (body : A -> B -> outcome B) (acc : B)
  : outcome B :=
  match items with
  | [] => Ret acc
  | x :: rest => acc' ← body x acc; for_each rest body acc'
  end.

(** [text += v] on a [str] accumulator. *)
Definition str_iadd (text : string) (v : pyval) : outcome string :=
  match v with
  | PyStr s => Ret (text +:+ s)
  | _ => Raise TypeError
  end.

(** ** Messages *)

(** An f-string is kept as its pieces: the literal parts and the values
    interpolated in its holes, each standing for the text [str] gives. *)
Inductive sqlval : Type :=
| SqlNull
| SqlText (s : string)
| SqlNumText (v : pyval).

Inductive piece : Type :=
| Lit (s : string)
| Fmt (v : pyval)
| FmtSql (v : sqlval)
| FmtTime (t : Z)
| FmtExn (e : exn).

Abbreviation fstring := (list piece).

Definition LF : string := String (ascii_of_nat 10) EmptyString.

Record InlineKeyboardButton := {
  label : string;
  callback_data : string
}.

Abbreviation InlineKeyboardMarkup := (list (list InlineKeyboardButton)).

(** What a handler does that is visible outside it, in order. *)
Inductive effect : Type :=
| answer
| send_action_typing
| reply_text (t : fstring) (reply_markup : option InlineKeyboardMarkup)
    (markdown : bool)
| edit_message_text (t : fstring) (reply_markup : option InlineKeyboardMarkup)
    (markdown : bool)
| vision_request (image_data : string)
| gemini_request (prompt : fstring)
| logger_error (t : fstring).

(** The glyph table [{'safe': '✅', 'moderate': '⚠️', 'high': '🔴'}] read
    with [.get(v, '❓')]. A [list] or a [dict] is unhashable. *)
Definition risk_table (s : string) : string :=
  if String.eqb s "safe" then "✅"
  else if String.eqb s "moderate" then "⚠️"
  else if String.eqb s "high" then "🔴"
  else "❓".

Definition risk_emoji (v : pyval) : outcome string :=
  match v with
  | PyStr s => Ret (risk_table s)
  | PyList _ | PyDict _ => Raise TypeError
  | _ => Ret "❓"
  end.

(** ** The [analyses] table *)

(** A row of [analyses]. The text columns hold what SQLite stores for the
    bound parameter: [NULL], the text itself, or the text form of a number
    ([SqlNumText], by the TEXT affinity of the column). *)
Record row := {
  row_id : Z;
  user_id : Z;
  username : sqlval;
  product_name : sqlval;
  composition : sqlval;
  verdict : sqlval;
  risk_level : sqlval;
  json_result : sqlval;
  created_at : Z
}.

(** The table with the counter behind [AUTOINCREMENT]. *)
Record table := {
  rows : list row;
  seq : Z
}.

Definition init_db : table := {| rows := []; seq := 0 |}.

(** Binding a parameter of [cursor.execute]: [sqlite3] adapts [None], [int]
    (64 bits, [bool] included), [float], [str]; a [list] or a [dict] is
    refused. A [str] is handed over in UTF-8, which a surrogate does not
    have; the engine keeps no NaN and stores [NULL] for it. *)
Definition sqlite_bind (v : pyval) : outcome sqlval :=
  match v with
  | PyNone => Ret SqlNull
  | PyStr s =>
      if has_surrogate s then Raise UnicodeEncodeError else Ret (SqlText s)
  | PyBool b => Ret (SqlNumText (PyInt (if b then 1 else 0)))
  | PyInt n =>
      if (- 2 ^ 63 <=? n) && (n <? 2 ^ 63) then Ret (SqlNumText v)
      else Raise OverflowError
  | PyFloat f =>
      if PrimFloat.is_nan f then Ret SqlNull else Ret (SqlNumText v)
  | PyList _ | PyDict _ => Raise SqliteError
  end.

(** [INSERT INTO analyses (user_id, username, product_name, composition,
    verdict, risk_level, json_result) VALUES (?, ?, ?, ?, ?, ?, ?)]: [id] and
    [created_at] are assigned by the engine. *)
Definition insert_row (now : Z) (uid : Z)
    (p : sqlval * sqlval * sqlval * sqlval * sqlval * sqlval) (t : table)
  : table :=
  let '(uname, product, comp, verd, risk, dumped) := p in
  let r := {| row_id := seq t + 1; user_id := uid; username := uname;
              product_name := product; composition := comp; verdict := verd;
              risk_level := risk; json_result := dumped; created_at := now |} in
  {| rows := rows t ++ [r]; seq := seq t + 1 |}.

(** [ORDER BY created_at DESC]: insertion into a list that is already in
    descending order. Rows of equal [created_at] keep their table order (the
    engine promises no order among them; nothing below depends on it). *)
Fixpoint insert_desc (r : row) (l : list row) : list row :=
  match l with
  | [] => [r]
  | r' :: l' =>
      if created_at r' <=? created_at r then r :: l
      else r' :: insert_desc r l'
  end.

Definition order_by_created_at_desc (l : list row) : list row :=
  foldr insert_desc [] l.

(** [SELECT ... FROM analyses WHERE user_id = ? ORDER BY created_at DESC
    LIMIT 10], before the projection on the selected columns. *)
Definition select_rows (uid : Z) (t : table) : list row :=
  take 10 (order_by_created_at_desc
             (filter (λ r, user_id r = uid) (rows t))).

(** The selected columns: [product_name, verdict, risk_level, created_at]. *)
Definition select_columns (r : row) : sqlval * sqlval * sqlval * Z :=
  (product_name r, verdict r, risk_level r, created_at r).

(** ** The outside world during one update *)

(** What an HTTP exchange gives: the request raises, or a response arrives
    with its status and what [resp.json()] evaluates to. *)
Inductive http_outcome : Type :=
| HttpRaise (e : exn)
| HttpResponse (status : Z) (json : outcome pyval).

Record env := {
  (** [json.loads]; [None] when it raises. *)
  json_loads : string -> option pyval;
  (** [json.dumps] *)
  json_dumps : pyval -> string;
  (** the Yandex Vision endpoint, from the image bytes *)
  vision_post : string -> http_outcome;
  (** the Gemini endpoint, from the prompt *)
  gemini_post : fstring -> http_outcome;
  (** [file.download_to_drive]: the bytes written, or the error raised *)
  download_to_drive : outcome string;
  (** the text of [datetime.now().timestamp()] *)
  timestamp : string;
  (** whether the storage engine fails on the next statement *)
  sqlite_fails : bool;
  (** [CURRENT_TIMESTAMP] *)
  current_timestamp : Z;
  (** the username of the bot that [TELEGRAM_TOKEN] belongs to: Latin
      letters, digits and underscores *)
  bot_username : string
}.

(** ** State and the handler monad *)

Record state := {
  (** [context.user_data] of the user the update comes from *)
  user_data : gmap string pyval;
  (** the table [analyses] of [labelspy_tg.db] *)
  db : table;
  (** the files under [/tmp] *)
  files : gmap string string;
  (** the effects so far, oldest first *)
  trace : list effect
}.

Definition M (A : Type) : Type := state -> outcome A * state.

#[export] Instance M_ret : MRet M := fun A a st => (Ret a, st).

#[export] Instance M_bind : MBind M := fun A B k m st =>
  match m st with
  | (Ret a, st') => k a st'
  | (Raise e, st') => (Raise e, st')
  end.

Definition lift {A} (o : outcome A) : M A := fun st => (o, st).

Definition raise {A} (e : exn) : M A := fun st => (Raise e, st).

Definition emit (e : effect) : M unit := fun st =>
  (Ret tt, {| user_data := user_data st; db := db st; files := files st;
              trace := trace st ++ [e] |}).

(** [context.user_data.get(k)] *)
Definition user_data_get (k : string) (dflt : pyval) : M pyval := fun st =>
  (Ret (default dflt (user_data st !! k)), st).

(** [context.user_data[k] = v] *)
Definition user_data_set (k : string) (v : pyval) : M unit := fun st =>
  (Ret tt, {| user_data := <[k:=v]> (user_data st); db := db st;
              files := files st; trace := trace st |}).

Definition read_file (path : string) : M string := fun st =>
  match files st !! path with
  | Some bytes => (Ret bytes, st)
  | None => (Raise OSError, st)
  end.

Definition write_file (path : string) (bytes : string) : M unit := fun st =>
  (Ret tt, {| user_data := user_data st; db := db st;
              files := <[path:=bytes]> (files st); trace := trace st |}).

(** [os.remove(path)] *)
Definition os_remove (path : string) : M unit := fun st =>
  match files st !! path with
  | Some _ =>
      (Ret tt, {| user_data := user_data st; db := db st;
                  files := delete path (files st); trace := trace st |})
  | None => (Raise OSError, st)
  end.

(** A statement that writes the table; the engine may fail instead. *)
Definition db_write (E : env) (f : table -> table) : M unit := fun st =>
  if sqlite_fails E then (Raise SqliteError, st)
  else (Ret tt, {| user_data := user_data st; db := f (db st);
                   files := files st; trace := trace st |}).

(** A statement that reads the table. *)
Definition db_read {A} (E : env) (f : table -> A) : M A := fun st =>
  if sqlite_fails E then (Raise SqliteError, st) else (Ret (f (db st)), st).

(** [try: body except Exception as e: handler e] *)
Definition try_except {A} (body : M A) (handler : exn -> M A) : M A := fun st =>
  match body st with
  | (Ret a, st') => (Ret a, st')
  | (Raise e, st') => handler e st'
  end.

(** ** Recognition gateway: [ocr_recognize] *)

(** [for x in v.get(k, []): ...] needs [v] to be a [dict] and the value under
    [k] to be iterable. *)
Definition iter_get (v : pyval) (k : string) : outcome (list pyval) :=
  x ← py_get v k (PyList []); py_iter x.

(** The five nested loops of [ocr_recognize], innermost first; the loop
    variables keep the names the source gives them. *)
Definition ocr_symbol (symbol : pyval) (text : string) : outcome string :=
  t ← py_get symbol "text" (PyStr EmptyString); str_iadd text t.

Definition ocr_word (word : pyval) (text : string) : outcome string :=
  symbols ← iter_get word "words"; for_each symbols ocr_symbol text.

Definition ocr_line (line : pyval) (text : string) : outcome string :=
  words ← iter_get line "lines"; for_each words ocr_word text.

Definition ocr_block (block : pyval) (text : string) : outcome string :=
  lines ← iter_get block "blocks"; for_each lines ocr_line text.

Definition ocr_result_item (result_item : pyval) (text : string)
  : outcome string :=
  detection ← py_get result_item "textDetection" (PyDict []);
  blocks ← iter_get detection "pages";
  for_each blocks ocr_block text.

Definition ocr_text (result : pyval) : outcome string :=
  items ← iter_get result "results";
  for_each items ocr_result_item EmptyString.

(** The body of [async with session.post(...) as resp]: the exchange with
    the provider and what the block returns. [resp.json()] is awaited before
    the status is looked at; a status other than 200 falls through to the
    final [return None]. *)
Definition vision_exchange (E : env) (image_data : string) : outcome pyval :=
  match vision_post E image_data with
  | HttpRaise e => Raise e
  | HttpResponse status json =>
      result ← json;
      if status =? 200
      then text ← ocr_text result; Ret (PyStr text)
      else Ret PyNone
  end.

Definition ocr_recognize (E : env) (photo_path : string) : M pyval :=
  try_except
    (image_data ← read_file photo_path;
     emit (vision_request image_data);;
     lift (vision_exchange E image_data))
    (λ e, emit (logger_error [Lit "OCR error: "; FmtExn e]);; mret PyNone).

(** ** Analysis gateway: [analyze_with_gemini] *)

(** The prompts hold double quotes; they are written with an apostrophe in
    their place, which [dq] turns into the double quote. *)
Fixpoint dq (s : string) : string :=
  match s with
  | EmptyString => EmptyString
  | String a r =>
      String (if Ascii.eqb a "'"%char then ascii_of_nat 34 else a) (dq r)
  end.

Definition recipes_prompt (text : pyval) : fstring :=
  [Lit ("Based on this product, suggest 3 creative recipes as JSON only:"
        +:+ LF +:+
        dq "{'recipes': [{'name': 'name', 'type': 'cocktail|dish|beverage', 'description': 'desc', 'ingredients': [], 'steps': []}]}"
        +:+ LF +:+ LF +:+ "Product: ");
   Fmt text].

Definition analyze_prompt (text : pyval) : fstring :=
  [Lit ("Analyze this product composition. Return JSON only:"
        +:+ LF +:+
        dq "{'productName': 'name', 'verdict': 'verdict', 'riskLevel': 'safe|moderate|high', 'highlights': ['E-code'], 'allergens': [], 'features': [], 'advice': 'tip'}"
        +:+ LF +:+ LF +:+ "Composition: ");
   Fmt text].

(** [result.get('candidates', [{}])[0].get('content', {}).get('parts',
    [{}])[0].get('text', '')] *)
Definition gemini_content (result : pyval) : outcome pyval :=
  candidates ← py_get result "candidates" (PyList [PyDict []]);
  candidate ← py_index0 candidates;
  content ← py_get candidate "content" (PyDict []);
  parts ← py_get content "parts" (PyList [PyDict []]);
  part ← py_index0 parts;
  py_get part "text" (PyStr EmptyString).

(** The suffix that starts at the first opening brace. *)
Fixpoint from_first_brace (s : string) : option string :=
  match s with
  | EmptyString => None
  | String a r => if Ascii.eqb a "{"%char then Some s else from_first_brace r
  end.

(** The prefix that ends at the last closing brace. *)
Fixpoint upto_last_brace (s : string) : option string :=
  match s with
  | EmptyString => None
  | String a r =>
      match upto_last_brace r with
      | Some m => Some (String a m)
      | None =>
          if Ascii.eqb a "}"%char then Some (String a EmptyString) else None
      end
  end.

(** [re.search(r'\{[\s\S]*\}', content)] and [.group()] of the match: the
    search is leftmost, so the match opens at the first [{]; the star is
    greedy and its class holds every character, so the match closes at the
    last [}] of the string. *)
Definition re_search (content : pyval) : outcome (option string) :=
  match content with
  | PyStr s => Ret (from_first_brace s ≫= upto_last_brace)
  | _ => Raise TypeError
  end.

(** The prompt of the mode. *)
Definition prompt_of (text : pyval) (mode : string) : fstring :=
  if String.eqb mode "recipes" then recipes_prompt text
  else analyze_prompt text.

(** The body of [if resp.status == 200]: the text of the first candidate,
    the search for the braces, [json.loads] of the match. Without a match the
    block falls through to the final [return None]. *)
Definition extract_json (E : env) (json : outcome pyval) : outcome pyval :=
  result ← json;
  content ← gemini_content result;
  json_match ← re_search content;
  match json_match with
  | Some group =>
      match json_loads E group with
      | Some v => Ret v
      | None => Raise JSONDecodeError
      end
  | None => Ret PyNone
  end.

(** The body of [async with session.post(...) as resp]. *)
Definition gemini_exchange (E : env) (prompt : fstring) : outcome pyval :=
  match gemini_post E prompt with
  | HttpRaise e => Raise e
  | HttpResponse status json =>
      if status =? 200 then extract_json E json else Ret PyNone
  end.

Definition analyze_with_gemini (E : env) (text : pyval) (mode : string)
  : M pyval :=
  let prompt := prompt_of text mode in
  try_except
    (emit (gemini_request prompt);;
     lift (gemini_exchange E prompt))
    (λ e, emit (logger_error [Lit "Gemini error: "; FmtExn e]);; mret PyNone).

(** ** Updates *)

Module User.
Record t := {
  id : Z;
  first_name : string;
  username : option string
}.
End User.

(** The updates the bot can receive: a command message, a photo message, a
    press on an inline button with its [callback_data], any other message.
    These are new messages of a chat with a user; an edited message or a
    channel post, whose [update.message] is [None], is not among them.

    The [command] of a command message is the text of its leading
    [bot_command] entity after the slash, as it was typed: [history],
    [HISTORY], [history@LabelSpyBot]. Telegram builds such an entity from Latin
    letters, digits and underscores only, with at most one [@username]. *)
Inductive Update : Type :=
| command_message (user : User.t) (command : string)
| photo_message (user : User.t)
| callback_query (user : User.t) (data : string)
| other_message (user : User.t).

Definition effective_user (update : Update) : User.t :=
  match update with
  | command_message user _ | photo_message user
  | callback_query user _ | other_message user => user
  end.

(** ** Handlers *)

Definition start (E : env) (update : Update) : M unit :=
  let user := effective_user update in
  emit (reply_text
    [Lit "👋 Привет, "; Lit (User.first_name user);
     Lit ("!" +:+ LF +:+ LF +:+
       "Я **LabelSpy Bot** — анализирую упаковки продуктов за секунды!"
       +:+ LF +:+ LF +:+ "🎯 Что я могу:" +:+ LF +:+
       "• 📷 Распознавать состав по фото (OCR)" +:+ LF +:+
       "• 🧪 Анализировать ингредиенты и E-коды" +:+ LF +:+
       "• ⚠️ Выдавать вердикт о безопасности" +:+ LF +:+
       "• 🍽️ Предлагать рецепты" +:+ LF +:+
       "• 💾 Сохранять историю анализов" +:+ LF +:+ LF +:+
       "📝 Просто загрузи фото этикетки и я расскажу всё!" +:+ LF)]
    None false).

Definition help_text : string :=
  "📖 **Справка:**" +:+ LF +:+ LF +:+
  "/start — начать" +:+ LF +:+
  "/help — эта справка" +:+ LF +:+
  "/history — просмотреть историю анализов" +:+ LF +:+
  "/clear — удалить историю" +:+ LF +:+ LF +:+
  "📸 **Как использовать:**" +:+ LF +:+
  "1. Отправь фото этикетки" +:+ LF +:+
  "2. Бот распознает текст" +:+ LF +:+
  "3. Нажми " +:+ dq "'Анализировать'" +:+ LF +:+
  "4. Получи полный отчет!" +:+ LF.

Definition help_command (E : env) (update : Update) : M unit :=
  emit (reply_text [Lit help_text] None false).

(** *** [handle_photo] *)

Definition photo_keyboard : InlineKeyboardMarkup :=
  [[{| label := "✅ Анализировать"; callback_data := "analyze" |}];
   [{| label := "📝 Отредактировать"; callback_data := "edit" |}];
   [{| label := "❌ Отмена"; callback_data := "cancel" |}]].

(** [composition_text[:200] + '...' if len(composition_text) > 200 else
    composition_text], on the [str] that [ocr_recognize] returns. *)
Definition preview_of (composition_text : pyval) : outcome string :=
  match composition_text with
  | PyStr s =>
      Ret (if (200 <? py_len s)%nat then py_prefix 200 s +:+ "..." else s)
  | _ => Raise TypeError
  end.

(** [f'/tmp/{user.id}_{datetime.now().timestamp()}.jpg'] *)
Definition photo_path_of (E : env) (user : User.t) : string :=
  "/tmp/" +:+ pretty (User.id user) +:+ "_" +:+ timestamp E +:+ ".jpg".

(** The calls to the chat transport ([send_action], [reply_text],
    [edit_message_text], [query.answer]) are taken to succeed, here and in
    the other handlers; fetching the photo may raise. *)
Definition handle_photo (E : env) (update : Update) : M unit :=
  let user := effective_user update in
  try_except
    (emit send_action_typing;;
     let photo_path := photo_path_of E user in
     bytes ← lift (download_to_drive E);
     write_file photo_path bytes;;
     emit (reply_text [Lit "🔍 Распознаю текст..."] None false);;
     composition_text ← ocr_recognize E photo_path;
     if negb (py_truthy composition_text)
     then
       emit (reply_text
               [Lit "❌ Не удалось распознать текст. Попробуй еще раз."]
               None false);;
       os_remove photo_path
     else
       user_data_set "last_composition" composition_text;;
       user_data_set "last_photo_path" (PyStr photo_path);;
       preview ← lift (preview_of composition_text);
       emit (reply_text
               [Lit ("📄 **Распознанный текст:**" +:+ LF +:+ LF +:+ "```"
                     +:+ LF);
                Lit preview;
                Lit (LF +:+ "```" +:+ LF +:+ LF +:+ "Что дальше?")]
               (Some photo_keyboard) false))
    (λ e,
       emit (logger_error [Lit "Photo handling error: "; FmtExn e]);;
       emit (reply_text [Lit "❌ Ошибка: "; FmtExn e] None false)).

(** *** [button_callback] *)

Definition analysis_keyboard : InlineKeyboardMarkup :=
  [[{| label := "🍽️ Рецепты"; callback_data := "recipes" |}];
   [{| label := "📸 Новая фото"; callback_data := "cancel" |}]].

Definition recipes_keyboard : InlineKeyboardMarkup :=
  [[{| label := "◀️ Назад"; callback_data := "back_to_analysis" |}]].

(** [query.from_user.username or 'unknown'] *)
Definition username_or_unknown (user : User.t) : string :=
  match User.username user with
  | Some s => if String.eqb s EmptyString then "unknown" else s
  | None => "unknown"
  end.

(** The parameter tuple of the [INSERT], then its binding by
    [cursor.execute]. *)
Definition insert_params (E : env) (user : User.t)
    (composition analysis : pyval)
  : outcome (sqlval * sqlval * sqlval * sqlval * sqlval * sqlval) :=
  product ← py_get analysis "productName" (PyStr "?");
  excerpt ← py_slice 500 composition;
  verd ← py_get analysis "verdict" (PyStr "?");
  risk ← py_get analysis "riskLevel" (PyStr "?");
  let dumped := json_dumps E analysis in
  b_product ← sqlite_bind product;
  b_excerpt ← sqlite_bind excerpt;
  b_verd ← sqlite_bind verd;
  b_risk ← sqlite_bind risk;
  Ret (SqlText (username_or_unknown user), b_product, b_excerpt, b_verd,
       b_risk, SqlText dumped).

(** [chr(10).join(f"• {f}" for f in features)] *)
Fixpoint bullets (features : list pyval) : fstring :=
  match features with
  | [] => []
  | [f] => [Lit "• "; Fmt f]
  | f :: rest => Lit "• " :: Fmt f :: Lit LF :: bullets rest
  end.

(** The response of the [analyze] branch. *)
Definition format_analysis (analysis : pyval) : outcome fstring :=
  level ← py_get analysis "riskLevel" PyNone;
  emoji ← risk_emoji level;
  product ← py_get analysis "productName" (PyStr "Продукт");
  verd ← py_get analysis "verdict" (PyStr "?");
  highlights ← py_get analysis "highlights" (PyList []);
  codes ← join_or ", " highlights "не найдены";
  allergens ← py_get analysis "allergens" (PyList []);
  allergen_text ← join_or ", " allergens "не найдены";
  features ← py_get analysis "features" (PyList []);
  feature_items ← py_iter features;
  advice ← py_get analysis "advice" (PyStr "?");
  Ret ([Lit "**"; Lit emoji; Lit " "; Fmt product;
        Lit ("**" +:+ LF +:+ LF +:+ "**Вердикт:** "); Fmt verd;
        Lit (LF +:+ LF +:+ "**E-коды:** "); Lit codes;
        Lit (LF +:+ LF +:+ "**Аллергены:** "); Lit allergen_text;
        Lit (LF +:+ LF +:+ "**Особенности:**" +:+ LF)]
       ++ bullets feature_items
       ++ [Lit (LF +:+ LF +:+ "💡 **Совет:** "); Fmt advice; Lit LF])%list.

(** One pass of the loop over [enumerate(..., 1)] in the [recipes] branch. *)
Definition format_recipe (i : Z) (recipe : pyval) : outcome fstring :=
  name ← py_get recipe "name" (PyStr "?");
  type ← py_get recipe "type" (PyStr "?");
  description ← py_get recipe "description" (PyStr "?");
  Ret [Lit "**"; Fmt (PyInt i); Lit ". "; Fmt name; Lit "** `"; Fmt type;
       Lit ("`" +:+ LF); Fmt description; Lit (LF +:+ LF)].

Fixpoint format_recipes (i : Z) (items : list pyval) (response : fstring)
  : outcome fstring :=
  match items with
  | [] => Ret response
  | recipe :: rest =>
      t ← format_recipe i recipe;
      format_recipes (i + 1) rest (response ++ t)%list
  end.

(** The response of the [back_to_analysis] branch. *)
Definition format_back (analysis : pyval) : outcome fstring :=
  level ← py_get analysis "riskLevel" PyNone;
  emoji ← risk_emoji level;
  product ← py_get analysis "productName" (PyStr "Продукт");
  verd ← py_get analysis "verdict" (PyStr "?");
  Ret [Lit "**"; Lit emoji; Lit " "; Fmt product;
       Lit ("**" +:+ LF +:+ LF +:+ "**Вердикт:** "); Fmt verd; Lit LF].

Definition button_callback (E : env) (update : Update) : M unit :=
  match update with
  | callback_query from_user data =>
      emit answer;;
      if String.eqb data "analyze" then
        composition ← user_data_get "last_composition" PyNone;
        if negb (py_truthy composition)
        then emit (edit_message_text [Lit "❌ Текст не найден"] None false)
        else
          emit (edit_message_text [Lit "🤖 Анализирую с Gemini..."] None
                  false);;
          analysis ← analyze_with_gemini E composition "analyze";
          if negb (py_truthy analysis)
          then emit (edit_message_text [Lit "❌ Ошибка анализа"] None false)
          else
            params ← lift (insert_params E from_user composition analysis);
            db_write E (insert_row (current_timestamp E)
                          (User.id from_user) params);;
            response ← lift (format_analysis analysis);
            emit (edit_message_text response (Some analysis_keyboard) true);;
            user_data_set "last_analysis" analysis
      else if String.eqb data "recipes" then
        emit (edit_message_text [Lit "👨‍🍳 Генерирую рецепты..."] None
                false);;
        composition ← user_data_get "last_composition" PyNone;
        recipes ← analyze_with_gemini E composition "recipes";
        listed ← (if negb (py_truthy recipes) then mret PyNone
                  else lift (py_get recipes "recipes" PyNone));
        if negb (py_truthy listed)
        then emit (edit_message_text [Lit "❌ Не удалось получить рецепты"]
                     None false)
        else
          response ← lift (
            all ← py_get recipes "recipes" (PyList []);
            first3 ← py_slice 3 all;
            items ← py_iter first3;
            format_recipes 1 items [Lit ("🍽️ **Рецепты:**" +:+ LF +:+ LF)]);
          emit (edit_message_text response (Some recipes_keyboard) true)
      else if String.eqb data "back_to_analysis" then
        analysis ← user_data_get "last_analysis" (PyDict []);
        response ← lift (format_back analysis);
        emit (edit_message_text response (Some analysis_keyboard) true)
      else if String.eqb data "cancel" then
        emit (edit_message_text [Lit "❌ Отменено"] None false)
      else mret tt
  | _ => raise AttributeError
  end.

(** *** [history] *)

Definition history_emoji (risk : sqlval) : string :=
  match risk with
  | SqlText s => risk_table s
  | _ => "❓"
  end.

Definition history_line (r : sqlval * sqlval * sqlval * Z) : fstring :=
  let '(product, verd, risk, created) := r in
  [Lit (history_emoji risk); Lit " **"; FmtSql product; Lit "** - ";
   FmtSql verd; Lit (LF +:+ "`"); FmtTime created; Lit ("`" +:+ LF +:+ LF)].

Definition history (E : env) (update : Update) : M unit :=
  let uid := User.id (effective_user update) in
  results ← db_read E (λ t, select_columns <$> select_rows uid t);
  match results with
  | [] => emit (reply_text [Lit "📭 История пуста"] None false)
  | _ =>
      emit (reply_text
              (Lit ("📋 **Твоя история анализов:**" +:+ LF +:+ LF)
               :: List.concat (history_line <$> results))
              None true)
  end.

(** ** [main]: the registered handlers and the dispatch of an update *)

Abbreviation callback := (env -> Update -> M unit).

Inductive handler : Type :=
| CommandHandler (command : string) (cb : callback)
| MessageHandler_PHOTO (cb : callback)
| CallbackQueryHandler (cb : callback).

Definition main : list handler :=
  [CommandHandler "start" start;
   CommandHandler "help" help_command;
   CommandHandler "history" history;
   MessageHandler_PHOTO handle_photo;
   CallbackQueryHandler button_callback].

(** [s.lower()] on the text of a command, where only the letters [A] to [Z]
    have a lower case. *)
Definition lower_ascii (a : ascii) : ascii :=
  let n := N_of_ascii a in
  if ((65 <=? n) && (n <=? 90))%N then ascii_of_N (n + 32) else a.

Fixpoint py_lower (s : string) : string :=
  match s with
  | EmptyString => EmptyString
  | String a r => String (lower_ascii a) (py_lower r)
  end.

(** Whether [s] is made of ASCII characters, as a command and a username
    are. *)
Fixpoint ascii_text (s : string) : bool :=
  match s with
  | EmptyString => true
  | String a r => (N_of_ascii a <? 128)%N && ascii_text r
  end.

(** [s.split('@')] *)
Fixpoint split_at_sign (s : string) : list string :=
  match s with
  | EmptyString => [EmptyString]
  | String a r =>
      if Ascii.eqb a "@" then EmptyString :: split_at_sign r
      else match split_at_sign r with
           | head :: parts => String a head :: parts
           | [] => [String a EmptyString]
           end
  end.

(** [command_parts = command.split('@')] followed by
    [command_parts.append(bot.username)]; the handler reads the first two. *)
Definition command_parts (command bot : string) : string * string :=
  match split_at_sign command ++ [bot] with
  | name :: addressee :: _ => (name, addressee)
  | _ => (command, bot)
  end.

(** Whether a handler takes an update. A [CommandHandler] keeps its command in
    lower case and takes a command message when
    [command_parts[0].lower() in self.commands and command_parts[1].lower()
    == bot.username.lower()]. *)
Definition check_update (E : env) (h : handler) (update : Update)
  : option callback :=
  match h, update with
  | CommandHandler c cb, command_message _ command =>
      let '(name, addressee) := command_parts command (bot_username E) in
      if String.eqb (py_lower name) (py_lower c)
         && String.eqb (py_lower addressee) (py_lower (bot_username E))
      then Some cb else None
  | MessageHandler_PHOTO cb, photo_message _ => Some cb
  | CallbackQueryHandler cb, callback_query _ _ => Some cb
  | _, _ => None
  end.

(** The first registered handler that takes the update handles it; an update
    that no handler takes is dropped. *)
Fixpoint dispatch (E : env) (handlers : list handler) (update : Update)
  : option callback :=
  match handlers with
  | [] => None
  | h :: rest =>
      match check_update E h update with
      | Some cb => Some cb
      | None => dispatch E rest update
      end
  end.

(** The whole bot: one [user_data] per user, the table, the files and the
    effects. *)
Record world := {
  sessions : gmap Z (gmap string pyval);
  w_db : table;
  w_files : gmap string string;
  w_trace : list effect
}.

Definition session_of (w : world) (uid : Z) : gmap string pyval :=
  default ∅ (sessions w !! uid).

(** An exception that leaves a callback is caught and logged by the
    application; what the callback did before it stays done. *)
Definition process_update (E : env) (update : Update) (w : world) : world :=
  match dispatch E main update with
  | None => w
  | Some cb =>
      let uid := User.id (effective_user update) in
      let st := {| user_data := session_of w uid; db := w_db w;
                   files := w_files w; trace := w_trace w |} in
      let st' := (cb E update st).2 in
      {| sessions := <[uid := user_data st']> (sessions w);
         w_db := db st'; w_files := files st'; w_trace := trace st' |}
  end.

(** A run of the bot: updates in arrival order, each with the answers of the
    outside world while it is handled. *)
Fixpoint run (events : list (env * Update)) (w : world) : world :=
  match events with
  | [] => w
  | (E, update) :: rest => run rest (process_update E update w)
  end.

Definition initial_world : world :=
  {| sessions := ∅; w_db := init_db; w_files := ∅; w_trace := [] |}.

(** * Properties *)

(** ** Vocabulary of the statements *)

(** A state with more effects recorded. *)
Definition with_trace (st : state) (tr : list effect) : state :=
  {| user_data := user_data st; db := db st; files := files st;
     trace := trace st ++ tr |}.

(** The order of a most-recent-first listing. *)
Definition newer_first (a b : row) : Prop := created_at b <= created_at a.

(** A history write: the engine's clock, the user, the bound parameters. *)
Abbreviation history_write :=
  (Z * Z * (sqlval * sqlval * sqlval * sqlval * sqlval * sqlval))%type.

(** The table after a sequence of writes, oldest first. *)
Definition table_after (writes : list history_write) (t : table) : table :=
  foldl (λ t w, insert_row w.1.1 w.1.2 w.2 t) t writes.

(** What a gateway hands back for the outcome of its [try] block: the value
    returned, or [None] after the exception is caught. *)
Definition caught (o : outcome pyval) : pyval :=
  match o with
  | Ret v => v
  | Raise _ => PyNone
  end.

(** What the [except] clause logs. *)
Definition logged (prefix : string) (o : outcome pyval) : list effect :=
  match o with
  | Ret _ => []
  | Raise e => [logger_error [Lit prefix; FmtExn e]]
  end.

(** Whether a character occurs in a string. *)
Fixpoint contains (c : ascii) (s : string) : bool :=
  match s with
  | EmptyString => false
  | String a r => Ascii.eqb a c || contains c r
  end.

(** The extraction rule in the specification's words, for comparison with
    [re_search]: the first balanced top-level object literal, that is, from
    the first opening brace to the closing brace that matches it. *)
Fixpoint balanced_prefix (depth : nat) (s : string) : option string :=
  match s with
  | EmptyString => None
  | String a r =>
      if Ascii.eqb a "{"%char then String a <$> balanced_prefix (S depth) r
      else if Ascii.eqb a "}"%char then
        match depth with
        | O => None
        | S O => Some (String a EmptyString)
        | S d => String a <$> balanced_prefix d r
        end
      else String a <$> balanced_prefix depth r
  end.

Definition spec_first_balanced_object (s : string) : option string :=
  from_first_brace s ≫= balanced_prefix 0.

(** ** Sample inputs *)

(** A Vision response whose only word is [t]. *)
Definition vision_body (t : string) : pyval :=
  PyDict [("results", PyList [PyDict [("textDetection", PyDict [("pages",
    PyList [PyDict [("blocks", PyList [PyDict [("lines", PyList [PyDict
      [("words", PyList [PyDict [("text", PyStr t)]])]])]])]])])]])].

(** A Gemini response whose first candidate holds the text [t]. *)
Definition gemini_body (t : string) : pyval :=
  PyDict [("candidates", PyList [PyDict [("content", PyDict [("parts",
    PyList [PyDict [("text", PyStr t)]])])]])].

(** An analysis with a risk level outside the enumeration and without the
    list fields and the advice, and its JSON text. *)
Definition snack : pyval :=
  PyDict [("productName", PyStr "Snack"); ("verdict", PyStr "ok");
          ("riskLevel", PyStr "extreme")].

Definition snack_text : string :=
  dq "{'productName': 'Snack', 'verdict': 'ok', 'riskLevel': 'extreme'}".

(** [json.loads] on the texts the sample runs submit: [snack_text] parses to
    [snack]; the other text submitted, two objects side by side, is refused
    (extra data after the first document). *)
Definition loads_snack (s : string) : option pyval :=
  if String.eqb s snack_text then Some snack else None.

(** An outside world in which both providers answer with status 200. *)
Definition provider (vision : pyval) (reply : string) (engine_fails : bool)
  : env :=
  {| json_loads := loads_snack;
     json_dumps := λ _, snack_text;
     vision_post := λ _, HttpResponse 200 (Ret vision);
     gemini_post := λ _, HttpResponse 200 (Ret (gemini_body reply));
     download_to_drive := Ret "jpeg";
     timestamp := "1730000000.5";
     sqlite_fails := engine_fails;
     current_timestamp := 1730000000;
     bot_username := "LabelSpyBot" |}.

Definition alice : User.t :=
  {| User.id := 7; User.first_name := "Alice"; User.username := Some "alice" |}.

Definition bob : User.t :=
  {| User.id := 8; User.first_name := "Bob"; User.username := None |}.

Definition sugar : env := provider (vision_body "Sugar") snack_text false.

Definition salt : env := provider (vision_body "Salt") snack_text false.

(** Alice sends a photo and has it analyzed. *)
Definition analyzed : world :=
  run [(sugar, photo_message alice); (sugar, callback_query alice "analyze")]
    initial_world.

Definition empty_state : state :=
  {| user_data := ∅; db := init_db; files := ∅; trace := [] |}.

(** Then she sends a second photo. *)
Definition second_photo : world :=
  process_update salt (photo_message alice) analyzed.

(** The storage engine is down. *)
Definition outage : env := provider (vision_body "Sugar") snack_text true.

(** A session that holds a recognized text and nothing else. *)
Definition photo_taken : state :=
  {| user_data := {["last_composition" := PyStr "Sugar"]}; db := init_db;
     files := ∅; trace := [] |}.

(** The layout the [back_to_analysis] branch fills. *)
Definition back_text (glyph : string) (product verd : pyval) : fstring :=
  [Lit "**"; Lit glyph; Lit " "; Fmt product;
   Lit ("**" +:+ LF +:+ LF +:+ "**Вердикт:** "); Fmt verd; Lit LF].

(** A reply that holds two objects side by side. *)
Definition two_objects : string := snack_text +:+ " " +:+ snack_text.

Definition chatty : env := provider (vision_body "Sugar") two_objects false.

(** A Vision response with status 200 and no text in it. *)
Definition blank : env := provider (PyDict []) snack_text false.

(** The photo has been written to [/tmp]. *)
Definition downloaded : state :=
  {| user_data := ∅; db := init_db;
     files := {["/tmp/7_1730000000.5.jpg" := "jpeg"]}; trace := [] |}.

(** Alice cancels after her analysis. *)
Definition cancelled : world :=
  process_update sugar (callback_query alice "cancel") analyzed.

(** Alice asks for her history to be cleared after her analysis. *)
Definition clear_requested : world :=
  process_update sugar (command_message alice "clear") analyzed.

(** The same outside world at a later time. *)
Definition later (seconds : Z) (E : env) : env :=
  {| json_loads := json_loads E; json_dumps := json_dumps E;
     vision_post := vision_post E; gemini_post := gemini_post E;
     download_to_drive := download_to_drive E; timestamp := timestamp E;
     sqlite_fails := sqlite_fails E;
     current_timestamp := current_timestamp E + seconds;
     bot_username := bot_username E |}.

(** Bob and Alice take turns: Bob, Alice a minute later, then Bob again. *)
Definition taking_turns : world :=
  run [(sugar, photo_message bob); (sugar, callback_query bob "analyze");
       (salt, photo_message alice);
       (later 60 salt, callback_query alice "analyze");
       (later 120 sugar, callback_query bob "analyze")]
    initial_world.

(** ** Well-formed Vision responses *)

(** The shape the Vision endpoint documents: results, pages, blocks, lines,
    words, each word with its text. *)
Definition vision_word (t : string) : pyval := PyDict [("text", PyStr t)].

Definition vision_line (ws : list string) : pyval :=
  PyDict [("words", PyList (vision_word <$> ws))].

Definition vision_block (ls : list (list string)) : pyval :=
  PyDict [("lines", PyList (vision_line <$> ls))].

Definition vision_page (bs : list (list (list string))) : pyval :=
  PyDict [("blocks", PyList (vision_block <$> bs))].

Definition vision_result (ps : list (list (list (list string)))) : pyval :=
  PyDict [("textDetection", PyDict [("pages", PyList (vision_page <$> ps))])].

Definition vision_response (rs : list (list (list (list (list string)))))
  : pyval :=
  PyDict [("results", PyList (vision_result <$> rs))].

(** The strings of a list, one after the other. *)
Definition joined (l : list string) : string :=
  foldr String.append EmptyString l.

(** The words of a well-formed response, in reading order. *)
Definition block_words (ls : list (list string)) : list string := mjoin ls.

Definition page_words (bs : list (list (list string))) : list string :=
  mjoin (block_words <$> bs).

Definition result_words (ps : list (list (list (list string))))
  : list string :=
  mjoin (page_words <$> ps).

Definition response_words (rs : list (list (list (list (list string)))))
  : list string :=
  mjoin (result_words <$> rs).

(** A photo of a label with two lines. *)
Definition label_photo : env :=
  provider (vision_response [[[[["Sugar"; ", "]; ["Salt"]]]]]) snack_text
    false.

(** A response in which one result has a null [textDetection]. *)
Definition null_detection : env :=
  provider
    (PyDict [("results",
              PyList [vision_result [[[["Sugar"]]]];
                      PyDict [("textDetection", PyNone)]])])
    snack_text false.

(** The Gemini endpoint answers 503 with a body that is not JSON. *)
Definition unavailable : env :=
  {| json_loads := loads_snack;
     json_dumps := λ _, snack_text;
     vision_post := λ _, HttpResponse 503 (Raise JSONDecodeError);
     gemini_post := λ _, HttpResponse 503 (Raise JSONDecodeError);
     download_to_drive := Ret "jpeg";
     timestamp := "1730000000.5";
     sqlite_fails := false;
     current_timestamp := 1730000000;
     bot_username := "LabelSpyBot" |}.

(** The counter of the table agrees with its rows: the ids are 1, 2, ... in
    the order of the rows, and the counter is the last id given. *)
Definition ids_count_up (t : table) : Prop :=
  seq t = Z.of_nat (List.length (rows t))
  /\ (row_id <$> rows t) = seqZ 1 (seq t).

(** An analysis whose highlights are a number, and one whose risk level is a
    list. *)
Definition odd_highlights : pyval :=
  PyDict [("productName", PyStr "Snack"); ("highlights", PyInt 5)].

Definition odd_risk : pyval :=
  PyDict [("productName", PyStr "Snack");
          ("riskLevel", PyList [PyStr "high"])].

(** An analysis whose risk level is a NaN. *)
Definition nan_risk : pyval :=
  PyDict [("productName", PyStr "Snack"); ("riskLevel", PyFloat PrimFloat.nan)].

(** Four recipes; the fourth is not even an object. *)
Definition four_recipes : pyval :=
  PyDict [("recipes",
           PyList [PyDict [("name", PyStr "Tea")];
                   PyDict [("name", PyStr "Pie")];
                   PyDict [("name", PyStr "Jam")];
                   PyInt 4])].

(** An outside world in which [json.loads] gives [v] for every text. *)
Definition replying (v : pyval) : env :=
  {| json_loads := λ _, Some v;
     json_dumps := λ _, snack_text;
     vision_post := λ _, HttpResponse 200 (Ret (vision_body "Sugar"));
     gemini_post := λ _, HttpResponse 200 (Ret (gemini_body "{}"));
     download_to_drive := Ret "jpeg";
     timestamp := "1730000000.5";
     sqlite_fails := false;
     current_timestamp := 1730000000;
     bot_username := "LabelSpyBot" |}.

(** The heading of the recipes. *)
Definition recipes_heading : fstring :=
  [Lit ("🍽️ **Рецепты:**" +:+ LF +:+ LF)].



(** The state a handler would start from if only the session were known. *)
Definition only_session (st : state) : state :=
  {| user_data := user_data st; db := init_db; files := ∅; trace := [] |}.

(** Whether an event comes from the user [uid]. *)
Definition from_user (uid : Z) (ev : env * Update) : Prop :=
  User.id (effective_user ev.2) = uid.

#[export] Instance from_user_dec uid ev : Decision (from_user uid ev) :=
  decide (User.id (effective_user ev.2) = uid).

(** ** Proof tactics *)

(** Runs the handler monad as far as the code is known. *)
Ltac run_monad :=
  unfold try_except, mbind, M_bind, mret, M_ret, emit, lift, raise,
    user_data_get, user_data_set, write_file, os_remove, db_write, db_read,
    with_trace;
  cbn -[ocr_recognize analyze_with_gemini photo_path_of insert_params
        format_analysis format_back format_recipes insert_row py_truthy
        preview_of].

(** Goes through the binds of a computation that is known to return. *)
Ltac invert_binds H :=
  repeat match type of H with
  | match ?o with Ret _ => _ | Raise _ => _ end = Ret _ =>
      let x := fresh "x" in
      let Hx := fresh "Hx" in
      destruct o as [x|] eqn:Hx; [|discriminate H]
  end.


(** ** The history query *)

Section HistoryQuery.

Lemma insert_desc_elem r x l : x ∈ insert_desc r l <-> x = r \/ x ∈ l.
Proof.
  induction l as [|r' l IH]; simpl.
  - rewrite list_elem_of_singleton, elem_of_nil. tauto.
  - destruct (created_at r' <=? created_at r);
      rewrite !elem_of_cons; [tauto|]. rewrite IH. tauto.
Qed.

Lemma order_by_elem x l : x ∈ order_by_created_at_desc l <-> x ∈ l.
Proof.
  induction l as [|r l IH]; simpl; [done|].
  rewrite insert_desc_elem, IH, elem_of_cons. tauto.
Qed.

Lemma insert_desc_sorted r l :
  StronglySorted newer_first l -> StronglySorted newer_first (insert_desc r l).
Proof.
  induction 1 as [|r' l Hs IH Hall]; simpl.
  - repeat constructor.
  - destruct (created_at r' <=? created_at r) eqn:Hle.
    + apply Z.leb_le in Hle. constructor.
      * by constructor.
      * constructor; [unfold newer_first; lia|].
        eapply Forall_impl; [exact Hall|].
        unfold newer_first; simpl; intros; lia.
    + apply Z.leb_gt in Hle. constructor; [exact IH|].
      apply Forall_forall. intros x Hx.
      apply insert_desc_elem in Hx as [->|Hx]; [unfold newer_first; lia|].
      rewrite Forall_forall in Hall. by apply Hall.
Qed.

Lemma order_by_sorted l :
  StronglySorted newer_first (order_by_created_at_desc l).
Proof.
  induction l as [|r l IH]; simpl; [constructor|].
  by apply insert_desc_sorted.
Qed.

Lemma take_sorted {A} (R : A -> A -> Prop) n (l : list A) :
  StronglySorted R l -> StronglySorted R (take n l).
Proof.
  intros Hs. revert n. induction Hs as [|x l Hs IH Hall]; intros [|n]; simpl;
    try constructor; [apply IH|].
  apply Forall_forall. intros y Hy. rewrite Forall_forall in Hall.
  apply Hall. eapply subseteq_take, Hy.
Qed.

End HistoryQuery.

(** What [history] does with the listing: one reply, built from the selected
    columns of the listed rows; the session and the table stay as they were. *)
Lemma history_run E update st :
  sqlite_fails E = false ->
  history E update st =
    (Ret tt,
     with_trace st
       [match select_rows (User.id (effective_user update)) (db st) with
        | [] => reply_text [Lit "📭 История пуста"] None false
        | listed =>
            reply_text
              (Lit ("📋 **Твоя история анализов:**" +:+ LF +:+ LF)
               :: List.concat (history_line <$> (select_columns <$> listed)))
              None true
        end]).
Proof.
  intros Hok. unfold history, db_read, mbind, M_bind. rewrite Hok.
  destruct (select_rows _ (db st)); reflexivity.
Qed.

(** ** The gateways *)

Lemma analyze_with_gemini_run E text mode st :
  analyze_with_gemini E text mode st =
    (Ret (caught (gemini_exchange E (prompt_of text mode))),
     with_trace st (gemini_request (prompt_of text mode)
                    :: logged "Gemini error: "
                         (gemini_exchange E (prompt_of text mode)))).
Proof.
  unfold analyze_with_gemini, try_except, mbind, M_bind, emit, lift, with_trace.
  simpl. destruct (gemini_exchange E (prompt_of text mode)); simpl;
    [reflexivity|]. by rewrite <- app_assoc.
Qed.

Lemma ocr_recognize_run E photo_path st image_data :
  files st !! photo_path = Some image_data ->
  ocr_recognize E photo_path st =
    (Ret (caught (vision_exchange E image_data)),
     with_trace st (vision_request image_data
                    :: logged "OCR error: " (vision_exchange E image_data))).
Proof.
  intros Hfile.
  unfold ocr_recognize, try_except, mbind, M_bind, read_file, emit, lift,
    with_trace.
  rewrite Hfile. simpl. destruct (vision_exchange E image_data); simpl;
    [reflexivity|]. by rewrite <- app_assoc.
Qed.

Lemma ocr_recognize_no_file E photo_path st :
  files st !! photo_path = None ->
  ocr_recognize E photo_path st =
    (Ret PyNone,
     with_trace st [logger_error [Lit "OCR error: "; FmtExn OSError]]).
Proof.
  intros Hfile.
  unfold ocr_recognize, try_except, mbind, M_bind, read_file, emit, lift,
    with_trace.
  by rewrite Hfile.
Qed.

(** [ocr_recognize] hands back [None] or a [str]. *)
Lemma vision_exchange_shape E image_data :
  caught (vision_exchange E image_data) = PyNone
  \/ exists s, caught (vision_exchange E image_data) = PyStr s.
Proof.
  unfold vision_exchange.
  destruct (vision_post E image_data) as [e|status [result|e]]; simpl; auto.
  destruct (status =? 200); simpl; auto.
  destruct (ocr_text result); simpl; eauto.
Qed.

(** ** [handle_photo] *)

Lemma handle_photo_recognized E update st bytes s :
  download_to_drive E = Ret bytes ->
  vision_exchange E bytes = Ret (PyStr s) ->
  s <> EmptyString ->
  let photo_path := photo_path_of E (effective_user update) in
  handle_photo E update st =
    (Ret tt,
     {| user_data := <["last_photo_path" := PyStr photo_path]>
                       (<["last_composition" := PyStr s]> (user_data st));
        db := db st;
        files := <[photo_path := bytes]> (files st);
        trace := trace st ++
          [send_action_typing;
           reply_text [Lit "🔍 Распознаю текст..."] None false;
           vision_request bytes;
           reply_text
             [Lit ("📄 **Распознанный текст:**" +:+ LF +:+ LF +:+ "```"
                   +:+ LF);
              Lit (if (200 <? py_len s)%nat then py_prefix 200 s +:+ "..."
                   else s);
              Lit (LF +:+ "```" +:+ LF +:+ LF +:+ "Что дальше?")]
             (Some photo_keyboard) false] |}).
Proof.
  intros Hdl Hex Hs photo_path. unfold handle_photo.
  fold photo_path. run_monad. rewrite Hdl.
  run_monad.
  erewrite ocr_recognize_run; [|simpl; apply lookup_insert_eq].
  rewrite Hex. simpl.
  destruct (String.eqb s EmptyString) eqn:Heq.
  { apply String.eqb_eq in Heq. contradiction. }
  run_monad.
  rewrite <- !app_assoc. reflexivity.
Qed.

Lemma handle_photo_not_recognized E update st bytes :
  download_to_drive E = Ret bytes ->
  py_truthy (caught (vision_exchange E bytes)) = false ->
  let photo_path := photo_path_of E (effective_user update) in
  handle_photo E update st =
    (Ret tt,
     {| user_data := user_data st;
        db := db st;
        files := delete photo_path (<[photo_path := bytes]> (files st));
        trace := trace st ++
          [send_action_typing;
           reply_text [Lit "🔍 Распознаю текст..."] None false;
           vision_request bytes]
          ++ logged "OCR error: " (vision_exchange E bytes)
          ++ [reply_text
                [Lit "❌ Не удалось распознать текст. Попробуй еще раз."]
                None false] |}).
Proof.
  intros Hdl Hfalsy photo_path. unfold handle_photo.
  fold photo_path. run_monad. rewrite Hdl.
  run_monad.
  erewrite ocr_recognize_run; [|simpl; apply lookup_insert_eq].
  rewrite Hfalsy. run_monad. rewrite lookup_insert_eq.
  rewrite <- !app_assoc. reflexivity.
Qed.

(** ** [button_callback] *)

Lemma analyze_run E user st composition :
  user_data st !! "last_composition" = Some composition ->
  py_truthy composition = true ->
  let prompt := prompt_of composition "analyze" in
  let analysis := caught (gemini_exchange E prompt) in
  let tr := [answer;
             edit_message_text [Lit "🤖 Анализирую с Gemini..."] None false;
             gemini_request prompt]
            ++ logged "Gemini error: " (gemini_exchange E prompt) in
  let inserted :=
    match insert_params E user composition analysis with
    | Ret params =>
        insert_row (current_timestamp E) (User.id user) params (db st)
    | Raise _ => db st
    end in
  button_callback E (callback_query user "analyze") st =
    if py_truthy analysis then
      match insert_params E user composition analysis with
      | Raise e => (Raise e, with_trace st tr)
      | Ret params =>
          if sqlite_fails E then (Raise SqliteError, with_trace st tr)
          else
            match format_analysis analysis with
            | Raise e =>
                (Raise e,
                 {| user_data := user_data st; db := inserted;
                    files := files st; trace := trace st ++ tr |})
            | Ret response =>
                (Ret tt,
                 {| user_data := <["last_analysis" := analysis]> (user_data st);
                    db := inserted; files := files st;
                    trace := trace st ++ tr ++
                      [edit_message_text response (Some analysis_keyboard)
                         true] |})
            end
      end
    else
      (Ret tt,
       with_trace st
         (tr ++ [edit_message_text [Lit "❌ Ошибка анализа"] None false])).
Proof.
  intros Hcomp Htruthy prompt analysis tr inserted.
  unfold button_callback. run_monad. rewrite Hcomp. simpl.
  rewrite Htruthy. run_monad.
  rewrite analyze_with_gemini_run. fold prompt. fold analysis.
  subst tr inserted.
  destruct (py_truthy analysis) eqn:Ha; run_monad.
  - destruct (insert_params E user composition analysis) as [params|e];
      run_monad.
    + destruct (sqlite_fails E); run_monad.
      * rewrite <- !app_assoc. reflexivity.
      * destruct (format_analysis analysis); run_monad;
          rewrite <- !app_assoc; reflexivity.
    + rewrite <- !app_assoc. reflexivity.
  - rewrite <- !app_assoc. reflexivity.
Qed.

Lemma recipes_run E user st :
  let composition := default PyNone (user_data st !! "last_composition") in
  let prompt := prompt_of composition "recipes" in
  let recipes := caught (gemini_exchange E prompt) in
  let tr := [answer;
             edit_message_text [Lit "👨‍🍳 Генерирую рецепты..."] None false;
             gemini_request prompt]
            ++ logged "Gemini error: " (gemini_exchange E prompt) in
  (py_truthy recipes = false ->
   button_callback E (callback_query user "recipes") st =
     (Ret tt,
      with_trace st
        (tr ++ [edit_message_text [Lit "❌ Не удалось получить рецепты"]
                  None false])))
  /\ exists o tr',
       button_callback E (callback_query user "recipes") st =
         (o, with_trace st (tr ++ tr')).
Proof.
  intros composition prompt recipes tr.
  unfold button_callback. run_monad.
  rewrite analyze_with_gemini_run. fold composition prompt recipes.
  subst tr. split.
  - intros ->. run_monad. cbn [py_truthy negb]. run_monad.
    rewrite <- !app_assoc. reflexivity.
  - destruct (py_truthy recipes); run_monad.
    + destruct (py_get recipes "recipes" PyNone) as [listed|e]; run_monad.
      * destruct (py_truthy listed); run_monad.
        -- match goal with
           | |- context [match ?o with Ret _ => _ | Raise _ => _ end] =>
               destruct o
           end; run_monad.
           ++ eexists _, [_]. rewrite <- !app_assoc. reflexivity.
           ++ eexists _, []. rewrite app_nil_r, <- !app_assoc. reflexivity.
        -- eexists _, [_]. rewrite <- !app_assoc. reflexivity.
      * eexists _, []. rewrite app_nil_r, <- !app_assoc. reflexivity.
    + cbn [py_truthy negb]. run_monad.
      eexists _, [_]. rewrite <- !app_assoc. reflexivity.
Qed.

Lemma back_run E user st :
  button_callback E (callback_query user "back_to_analysis") st =
    match format_back (default (PyDict []) (user_data st !! "last_analysis"))
    with
    | Ret response =>
        (Ret tt,
         with_trace st
           [answer;
            edit_message_text response (Some analysis_keyboard) true])
    | Raise e => (Raise e, with_trace st [answer])
    end.
Proof.
  unfold button_callback. run_monad.
  destruct (format_back _); run_monad; [|reflexivity].
  rewrite <- !app_assoc. reflexivity.
Qed.

(** ** The extraction rule of [analyze_with_gemini] *)

Section Braces.

Lemma from_first_brace_some s t :
  from_first_brace s = Some t ->
  exists pre r, s = pre +:+ t /\ t = String "{"%char r
                /\ contains "{"%char pre = false.
Proof.
  induction s as [|a s IH]; simpl; [discriminate|].
  destruct (Ascii.eqb a "{"%char) eqn:Ha.
  - intros [= <-]. apply Ascii.eqb_eq in Ha as ->.
    exists EmptyString, s. auto.
  - intros Ht. destruct (IH Ht) as (pre & r & -> & -> & Hpre).
    exists (String a pre), r. simpl. rewrite Ha. auto.
Qed.

Lemma from_first_brace_none s :
  from_first_brace s = None -> contains "{"%char s = false.
Proof.
  induction s as [|a s IH]; simpl; [done|].
  destruct (Ascii.eqb a "{"%char); [discriminate|]. exact IH.
Qed.

Lemma upto_last_brace_none s :
  upto_last_brace s = None -> contains "}"%char s = false.
Proof.
  induction s as [|a s IH]; simpl; [done|].
  destruct (upto_last_brace s); [discriminate|].
  destruct (Ascii.eqb a "}"%char); [discriminate|]. intros _. by apply IH.
Qed.

Lemma upto_last_brace_some s g :
  upto_last_brace s = Some g ->
  exists m post, s = g +:+ post /\ g = m +:+ "}"
                 /\ contains "}"%char post = false.
Proof.
  revert g. induction s as [|a s IH]; simpl; [discriminate|]. intros g.
  destruct (upto_last_brace s) as [m|] eqn:Hs.
  - intros [= <-]. destruct (IH m eq_refl) as (m' & post & -> & -> & Hpost).
    exists (String a m'), post. auto.
  - destruct (Ascii.eqb a "}"%char) eqn:Ha; [|discriminate].
    intros [= <-]. apply Ascii.eqb_eq in Ha as ->.
    exists EmptyString, s. split; [done|]. split; [done|].
    by apply upto_last_brace_none.
Qed.

(** The match of the regular expression: it opens at the first [{] of the
    content and closes at its last [}]. *)
Lemma re_search_match content group :
  from_first_brace content ≫= upto_last_brace = Some group ->
  exists pre mid post,
    content = pre +:+ group +:+ post
    /\ group = "{" +:+ mid +:+ "}"
    /\ contains "{"%char pre = false
    /\ contains "}"%char post = false.
Proof.
  destruct (from_first_brace content) as [t|] eqn:Ht; simpl; [|discriminate].
  intros Hg.
  destruct (from_first_brace_some _ _ Ht) as (pre & r & -> & -> & Hpre).
  simpl in Hg. destruct (upto_last_brace r) as [m|] eqn:Hr; [|discriminate].
  injection Hg as <-.
  destruct (upto_last_brace_some _ _ Hr) as (mid & post & -> & -> & Hpost).
  exists pre, mid, post. auto.
Qed.

(** No match: after the first [{], if there is one, no [}] occurs. *)
Lemma re_search_no_match content :
  from_first_brace content ≫= upto_last_brace = None ->
  contains "{"%char content = false
  \/ exists pre r, content = pre +:+ String "{"%char r
                   /\ contains "{"%char pre = false
                   /\ contains "}"%char r = false.
Proof.
  destruct (from_first_brace content) as [t|] eqn:Ht; simpl.
  - intros Hn. right.
    destruct (from_first_brace_some _ _ Ht) as (pre & r & -> & -> & Hpre).
    exists pre, r. split; [done|]. split; [done|].
    apply upto_last_brace_none in Hn. simpl in Hn. exact Hn.
  - intros _. left. by apply from_first_brace_none.
Qed.

End Braces.

(** ** Sessions, bound values, caught outcomes *)

Lemma session_of_written ss d f t uid (m : gmap string pyval) :
  session_of {| sessions := <[uid := m]> ss; w_db := d; w_files := f;
                w_trace := t |} uid = m.
Proof. unfold session_of. cbn [sessions]. by rewrite lookup_insert_eq. Qed.

Lemma session_of_other ss d f t uid uid' (m : gmap string pyval) w :
  sessions w = ss -> uid' <> uid ->
  session_of {| sessions := <[uid := m]> ss; w_db := d; w_files := f;
                w_trace := t |} uid' = session_of w uid'.
Proof.
  intros <- Hne. unfold session_of. cbn [sessions].
  by rewrite lookup_insert_ne.
Qed.

Lemma sqlite_bind_safe level :
  sqlite_bind level = Ret (SqlText "safe") -> level = PyStr "safe".
Proof.
  destruct level as [|b|n|f|s|l|d]; simpl; try discriminate.
  - destruct ((- 2 ^ 63 <=? n) && (n <? 2 ^ 63)); discriminate.
  - destruct (PrimFloat.is_nan f); discriminate.
  - destruct (has_surrogate s); [discriminate|]. by intros [= ->].
Qed.

Lemma sqlite_bind_str s b :
  sqlite_bind (PyStr s) = Ret b -> b = SqlText s /\ has_surrogate s = false.
Proof.
  simpl. destruct (has_surrogate s); [discriminate|]. by intros [= <-].
Qed.

(** What a parameter tuple that binds is made of. *)
Lemma insert_params_inv E user composition d uname product comp verd risk
    dumped :
  insert_params E user composition (PyDict d)
    = Ret (uname, product, comp, verd, risk, dumped) ->
  exists excerpt,
    py_slice 500 composition = Ret excerpt
    /\ uname = SqlText (username_or_unknown user)
    /\ sqlite_bind (default (PyStr "?") (assoc_get d "productName"))
       = Ret product
    /\ sqlite_bind excerpt = Ret comp
    /\ sqlite_bind (default (PyStr "?") (assoc_get d "verdict")) = Ret verd
    /\ sqlite_bind (default (PyStr "?") (assoc_get d "riskLevel")) = Ret risk
    /\ dumped = SqlText (json_dumps E (PyDict d)).
Proof.
  unfold insert_params, py_get, mbind, outcome_bind, mret, outcome_ret.
  intros H. destruct (py_slice 500 composition) as [excerpt|]; [|done].
  invert_binds H. injection H as <- <- <- <- <- <-.
  exists excerpt. repeat (split; [done|]). done.
Qed.

Lemma sqlite_bind_text level s :
  sqlite_bind level = Ret (SqlText s) ->
  level = PyStr s /\ has_surrogate s = false.
Proof.
  destruct level as [|b|n|f|t|l|d]; simpl; try discriminate.
  - destruct ((- 2 ^ 63 <=? n) && (n <? 2 ^ 63)); discriminate.
  - destruct (PrimFloat.is_nan f); discriminate.
  - destruct (has_surrogate t) eqn:Ht; [discriminate|]. by intros [= ->].
Qed.

Lemma sqlite_bind_null level :
  sqlite_bind level = Ret SqlNull <->
  level = PyNone \/ exists f, level = PyFloat f /\ PrimFloat.is_nan f = true.
Proof.
  split.
  - destruct level as [|b|n|f|t|l|d]; simpl; try discriminate; auto.
    + destruct ((- 2 ^ 63 <=? n) && (n <? 2 ^ 63)); discriminate.
    + destruct (PrimFloat.is_nan f) eqn:Hf; [eauto|discriminate].
    + destruct (has_surrogate t); discriminate.
  - intros [->|(f & -> & Hf)]; simpl; [done|]. by rewrite Hf.
Qed.

(** A risk level that does not bind makes the parameter tuple raise, whatever
    the other parameters are. *)
Lemma insert_params_raises E user composition d e :
  sqlite_bind (default (PyStr "?") (assoc_get d "riskLevel")) = Raise e ->
  exists e', insert_params E user composition (PyDict d) = Raise e'.
Proof.
  intros Hraise.
  unfold insert_params, py_get, mbind, outcome_bind, mret, outcome_ret.
  destruct (py_slice 500 composition) as [excerpt|]; [|eauto].
  destruct (sqlite_bind (default (PyStr "?") (assoc_get d "productName")));
    [|eauto].
  destruct (sqlite_bind excerpt); [|eauto].
  destruct (sqlite_bind (default (PyStr "?") (assoc_get d "verdict")));
    [|eauto].
  rewrite Hraise. eauto.
Qed.

Lemma risk_table_unlisted s :
  PyStr s ∉ [PyStr "safe"; PyStr "moderate"; PyStr "high"] ->
  risk_table s = "❓".
Proof.
  intros Hnot. unfold risk_table.
  destruct (String.eqb s "safe") eqn:H1.
  { apply String.eqb_eq in H1 as ->. exfalso. apply Hnot. set_solver. }
  destruct (String.eqb s "moderate") eqn:H2.
  { apply String.eqb_eq in H2 as ->. exfalso. apply Hnot. set_solver. }
  destruct (String.eqb s "high") eqn:H3.
  { apply String.eqb_eq in H3 as ->. exfalso. apply Hnot. set_solver. }
  reflexivity.
Qed.

Lemma extract_json_text E result content :
  gemini_content result = Ret (PyStr content) ->
  extract_json E (Ret result) =
    match from_first_brace content ≫= upto_last_brace with
    | Some group =>
        match json_loads E group with
        | Some v => Ret v
        | None => Raise JSONDecodeError
        end
    | None => Ret PyNone
    end.
Proof.
  intros Hcontent. unfold extract_json. cbn [mbind outcome_bind].
  rewrite Hcontent. reflexivity.
Qed.

Lemma caught_vision_exchange E image_data :
  caught (vision_exchange E image_data) =
    match vision_post E image_data with
    | HttpResponse status (Ret result) =>
        if status =? 200
        then match ocr_text result with
             | Ret text => PyStr text
             | Raise _ => PyNone
             end
        else PyNone
    | _ => PyNone
    end.
Proof.
  unfold vision_exchange.
  destruct (vision_post E image_data) as [e|status [result|e]]; simpl;
    try reflexivity.
  destruct (status =? 200); simpl; [|reflexivity].
  destruct (ocr_text result); reflexivity.
Qed.

Lemma caught_gemini_exchange E prompt :
  caught (gemini_exchange E prompt) =
    match gemini_post E prompt with
    | HttpResponse status (Ret result) =>
        if status =? 200
        then match gemini_content result with
             | Ret (PyStr content) =>
                 match from_first_brace content ≫= upto_last_brace with
                 | Some group => default PyNone (json_loads E group)
                 | None => PyNone
                 end
             | _ => PyNone
             end
        else PyNone
    | _ => PyNone
    end.
Proof.
  unfold gemini_exchange.
  destruct (gemini_post E prompt) as [e|status json]; [reflexivity|].
  destruct (status =? 200); [|destruct json; reflexivity].
  destruct json as [result|e]; [|reflexivity].
  destruct (gemini_content result) as [content|e] eqn:Hc.
  - destruct content as [|b|n|f|content|l|d].
    5: { rewrite (extract_json_text E result content Hc).
         destruct (from_first_brace content ≫= upto_last_brace)
           as [group|]; [|reflexivity].
         destruct (json_loads E group); reflexivity. }
    all: unfold extract_json; cbn [mbind outcome_bind]; rewrite Hc;
      reflexivity.
  - unfold extract_json. cbn [mbind outcome_bind]. rewrite Hc. reflexivity.
Qed.

(** * The claims *)

(** ** C1: a new photo *)

(** C1 (amended). Handling a photo whose recognition succeeds stores the
    recognized text under [last_composition] and the path of the photo under
    [last_photo_path] in the sender's session; every other key of that session,
    [last_analysis] included, and every other session are left as they were. *)
Theorem photo_replaces_text_keeps_analysis
    (E : env) (user : User.t) (w : world) (bytes s : string) :
  download_to_drive E = Ret bytes ->
  vision_exchange E bytes = Ret (PyStr s) ->
  s <> EmptyString ->
  let uid := User.id user in
  let w' := process_update E (photo_message user) w in
  session_of w' uid !! "last_composition" = Some (PyStr s)
  /\ session_of w' uid !! "last_photo_path"
     = Some (PyStr (photo_path_of E user))
  /\ (forall k, k <> "last_composition" -> k <> "last_photo_path" ->
        session_of w' uid !! k = session_of w uid !! k)
  /\ session_of w' uid !! "last_analysis" = session_of w uid !! "last_analysis"
  /\ (forall uid', uid' <> uid -> session_of w' uid' = session_of w uid').
Proof.
  intros Hdl Hex Hs uid w'. subst w'. unfold process_update.
  cbn [dispatch main check_update effective_user].
  change (dispatch E main (photo_message user)) with (Some handle_photo).
  cbv beta iota zeta.
  rewrite (handle_photo_recognized E (photo_message user) _ bytes s Hdl Hex Hs).
  cbn [snd user_data db files trace effective_user].
  fold uid.
  repeat split.
  - rewrite session_of_written, lookup_insert_ne by done.
    apply lookup_insert_eq.
  - rewrite session_of_written. apply lookup_insert_eq.
  - intros k Hk1 Hk2. by rewrite session_of_written, !lookup_insert_ne.
  - by rewrite session_of_written, !lookup_insert_ne.
  - intros uid' Hne. by apply session_of_other.
Qed.

Lemma photo_replaces_text_keeps_analysis_witness :
  download_to_drive salt = Ret "jpeg"
  /\ vision_exchange salt "jpeg" = Ret (PyStr "Salt")
  /\ "Salt" <> EmptyString
  /\ session_of second_photo 7 !! "last_composition" = Some (PyStr "Salt")
  /\ session_of second_photo 7 !! "last_analysis"
     = session_of analyzed 7 !! "last_analysis".
Proof.
  assert (Hs : "Salt" <> EmptyString) by discriminate.
  pose proof (photo_replaces_text_keeps_analysis salt alice analyzed
                "jpeg" "Salt" eq_refl eq_refl Hs) as (H1 & _ & _ & H4 & _).
  split; [reflexivity|]. split; [reflexivity|]. split; [exact Hs|].
  split; [exact H1 | exact H4].
Defined.

(** C1 (as stated, refuted). After a photo, an analysis and a second photo,
    the session holds the text of the second photo together with the analysis
    of the first. *)
Lemma second_photo_keeps_first_analysis :
  session_of second_photo 7 !! "last_composition" = Some (PyStr "Salt")
  /\ session_of second_photo 7 !! "last_analysis" = Some snack
  /\ session_of second_photo 7 !! "last_analysis" <> None.
Proof. vm_compute. repeat split; discriminate. Qed.

(** ** C2: recipes without a recognized text *)

(** C2 (code as it is). With no recognized text in the session, the [recipes]
    branch still sends a request to the analysis gateway, with [None] in the
    prompt; the [analyze] branch, in the same state, answers with its error
    and sends nothing. *)
Theorem recipes_without_text_calls_gateway
    (E : env) (user : User.t) (st : state) :
  user_data st !! "last_composition" = None ->
  (exists o tr',
     button_callback E (callback_query user "recipes") st =
       (o, with_trace st
             ([answer;
               edit_message_text [Lit "👨‍🍳 Генерирую рецепты..."] None false;
               gemini_request (recipes_prompt PyNone)] ++ tr')))
  /\ button_callback E (callback_query user "analyze") st =
       (Ret tt,
        with_trace st
          [answer; edit_message_text [Lit "❌ Текст не найден"] None false]).
Proof.
  intros Hnone. split.
  - destruct (recipes_run E user st) as (_ & o & tr' & Hrun).
    rewrite Hnone in Hrun. cbn [default] in Hrun.
    change (prompt_of PyNone "recipes") with (recipes_prompt PyNone) in Hrun.
    rewrite <- app_assoc in Hrun. eauto.
  - unfold button_callback. run_monad. rewrite Hnone. cbn [default py_truthy].
    run_monad. rewrite <- !app_assoc. reflexivity.
Qed.

Lemma recipes_without_text_calls_gateway_witness :
  user_data empty_state !! "last_composition" = None
  /\ exists o tr',
       button_callback sugar (callback_query alice "recipes") empty_state =
         (o, with_trace empty_state
               ([answer;
                 edit_message_text [Lit "👨‍🍳 Генерирую рецепты..."] None
                   false;
                 gemini_request (recipes_prompt PyNone)] ++ tr')).
Proof.
  split; [reflexivity|].
  apply (recipes_without_text_calls_gateway sugar alice empty_state).
  reflexivity.
Defined.

(** ** C3: risk levels outside the enumeration *)

(** C3 (amended). When the analysis carries a risk level outside
    [safe], [moderate], [high], or none at all, nothing puts [safe] or
    [unknown] in its place: the handler writes no row or one row, and that
    row holds the level as the engine binds it. A level the engine cannot bind (a list, an object,
    an integer beyond 64 bits, a text with a surrogate) makes the [INSERT]
    raise: no row is written, the analysis is neither presented nor kept, and
    the progress notice is the last message. When the parameters bind, the row
    written holds what the engine keeps of the level as it was received: the
    same text for a text ([?] when there is none), [NULL] for [None] and for
    a NaN, a number otherwise; never [safe]. When the analysis can also be
    presented, it opens with the unknown-risk glyph and is kept in the session
    unchanged. *)
Theorem unlisted_risk_level_is_kept
    (E : env) (user : User.t) (st : state)
    (composition analysis level : pyval) :
  user_data st !! "last_composition" = Some composition ->
  py_truthy composition = true ->
  gemini_exchange E (prompt_of composition "analyze") = Ret analysis ->
  py_truthy analysis = true ->
  py_get analysis "riskLevel" (PyStr "?") = Ret level ->
  level ∉ [PyStr "safe"; PyStr "moderate"; PyStr "high"] ->
  sqlite_fails E = false ->
  let result := button_callback E (callback_query user "analyze") st in
  (rows (db result.2) = rows (db st)
   \/ exists r,
        rows (db result.2) = rows (db st) ++ [r]
        /\ sqlite_bind level = Ret (risk_level r)
        /\ risk_level r <> SqlText "safe")
  /\ (forall e,
     sqlite_bind level = Raise e ->
     exists e',
       result =
         (Raise e',
          with_trace st
            [answer;
             edit_message_text [Lit "🤖 Анализирую с Gemini..."] None false;
             gemini_request (prompt_of composition "analyze")]))
  /\ (forall params,
        insert_params E user composition analysis = Ret params ->
        exists r,
          rows (db result.2) = rows (db st) ++ [r]
          /\ sqlite_bind level = Ret (risk_level r)
          /\ risk_level r <> SqlText "safe"
          /\ (forall s, risk_level r = SqlText s <-> level = PyStr s)
          /\ (risk_level r = SqlNull <->
              level = PyNone
              \/ exists f, level = PyFloat f /\ PrimFloat.is_nan f = true))
  /\ (forall params response,
        insert_params E user composition analysis = Ret params ->
        format_analysis analysis = Ret response ->
        exists rest,
          result.1 = Ret tt
          /\ user_data result.2 !! "last_analysis" = Some analysis
          /\ response = Lit "**" :: Lit "❓" :: rest
          /\ last (trace result.2)
             = Some (edit_message_text response (Some analysis_keyboard)
                       true)).
Proof.
  intros Hcomp Htc Hex Hta Hlevel Hnot Hok result. subst result.
  rewrite (analyze_run E user st composition Hcomp Htc).
  rewrite Hex. cbn [caught logged]. rewrite Hta, Hok.
  destruct analysis as [| | | | | |d]; try discriminate Hlevel.
  simpl in Hlevel. injection Hlevel as Hlevel.
  assert (Hsafe : forall risk, sqlite_bind level = Ret risk ->
                               risk <> SqlText "safe").
  { intros risk Hrisk ->. apply sqlite_bind_safe in Hrisk. subst level.
    apply Hnot. set_solver. }
  split; [|split; [|split]].
  - (* at most one row, and it holds the level *)
    destruct (insert_params E user composition (PyDict d))
      as [params|e] eqn:Hparams; [|by left].
    destruct params as [[[[[uname product] comp] verd] risk] dumped].
    apply insert_params_inv in Hparams
      as (excerpt & _ & _ & _ & _ & _ & Hrisk & _).
    rewrite Hlevel in Hrisk. right.
    exists {| row_id := seq (db st) + 1; user_id := User.id user;
              username := uname; product_name := product;
              composition := comp; verdict := verd; risk_level := risk;
              json_result := dumped; created_at := current_timestamp E |}.
    cbn [risk_level]. split.
    { by destruct (format_analysis (PyDict d)). }
    split; [exact Hrisk | by apply Hsafe].
  - (* the level does not bind *)
    intros e Hraise. rewrite <- Hlevel in Hraise.
    destruct (insert_params_raises E user composition d e Hraise)
      as [e' ->].
    exists e'. by rewrite app_nil_r.
  - (* the row *)
    intros params Hparams. rewrite Hparams.
    destruct params as [[[[[uname product] comp] verd] risk] dumped].
    apply insert_params_inv in Hparams
      as (excerpt & _ & _ & _ & _ & _ & Hrisk & _).
    rewrite Hlevel in Hrisk.
    exists {| row_id := seq (db st) + 1; user_id := User.id user;
              username := uname; product_name := product;
              composition := comp; verdict := verd; risk_level := risk;
              json_result := dumped; created_at := current_timestamp E |}.
    cbn [risk_level]. split.
    { by destruct (format_analysis (PyDict d)). }
    split; [exact Hrisk|]. split; [by apply Hsafe|].
    split.
    + intros s. split.
      * intros ->. by apply sqlite_bind_text in Hrisk as [-> _].
      * intros ->. by apply sqlite_bind_str in Hrisk as [-> _].
    + split.
      * intros ->. by apply sqlite_bind_null in Hrisk.
      * intros Hnull. apply sqlite_bind_null in Hnull. congruence.
  - (* the presentation *)
    intros params response Hparams Hfmt. rewrite Hparams, Hfmt.
    assert (Hglyph : exists rest, response = Lit "**" :: Lit "❓" :: rest).
    { unfold format_analysis in Hfmt. simpl in Hfmt.
      unfold mbind, outcome_bind in Hfmt.
      destruct (risk_emoji (default PyNone (assoc_get d "riskLevel")))
        as [emoji|] eqn:Hemoji; [|discriminate Hfmt].
      invert_binds Hfmt. injection Hfmt as <-.
      assert (emoji = "❓") as ->; [|simpl; eauto].
      destruct (assoc_get d "riskLevel") as [v|]; simpl in *.
      - subst v. destruct level; simpl in Hemoji; try discriminate;
          try (by injection Hemoji as <-).
        injection Hemoji as <-. by apply risk_table_unlisted.
      - by injection Hemoji as <-. }
    destruct Hglyph as [rest Hrest]. exists rest.
    cbn [fst snd user_data trace].
    split; [reflexivity|]. split; [apply lookup_insert_eq|].
    split; [exact Hrest|].
    rewrite !app_assoc. apply last_snoc.
Qed.

Lemma unlisted_risk_level_is_kept_witness :
  py_get snack "riskLevel" (PyStr "?") = Ret (PyStr "extreme")
  /\ (PyStr "extreme" ∉ [PyStr "safe"; PyStr "moderate"; PyStr "high"])
  /\ exists r st',
       button_callback sugar (callback_query alice "analyze") photo_taken
         = (Ret tt, st')
       /\ rows (db st') = rows (db photo_taken) ++ [r]
       /\ sqlite_bind (PyStr "extreme") = Ret (risk_level r)
       /\ risk_level r = SqlText "extreme"
       /\ risk_level r <> SqlText "safe"
       /\ user_data st' !! "last_analysis" = Some snack.
Proof.
  assert (Hnot : PyStr "extreme" ∉ [PyStr "safe"; PyStr "moderate";
                                     PyStr "high"]).
  { rewrite !elem_of_cons, elem_of_nil. intros [H|[H|[H|[]]]]; discriminate. }
  split; [reflexivity|]. split; [exact Hnot|].
  destruct (unlisted_risk_level_is_kept sugar alice photo_taken
              (PyStr "Sugar") snack (PyStr "extreme")
              eq_refl eq_refl eq_refl eq_refl eq_refl Hnot eq_refl)
    as (_ & _ & Hrow & Hshown).
  destruct (Hrow _ eq_refl) as (r & H1 & H2 & H3 & H4 & _).
  destruct (Hshown _ _ eq_refl eq_refl) as (rest & H5 & H6 & _ & _).
  exists r, (button_callback sugar (callback_query alice "analyze")
               photo_taken).2.
  split.
  { rewrite <- H5. by destruct (button_callback _ _ _). }
  split; [exact H1|]. split; [exact H2|].
  split; [by apply H4|]. split; [exact H3 | exact H6].
Defined.

(** C3 (as stated, refuted). The analysis [snack] carries the risk level
    [extreme]; after the [analyze] branch the history row holds [extreme], not
    [unknown], and so does the analysis kept in the session. *)
Lemma unlisted_risk_level_is_not_normalized :
  (risk_level <$> rows (w_db analyzed)) = [SqlText "extreme"]
  /\ SqlText "extreme" <> SqlText "unknown"
  /\ session_of analyzed 7 !! "last_analysis" = Some snack
  /\ py_get snack "riskLevel" PyNone = Ret (PyStr "extreme").
Proof. vm_compute. repeat split. discriminate. Qed.

(** C3 (amended), at the values the engine does not keep as they are. A NaN
    is stored as [NULL]; a list is refused, and nothing is written, presented
    or kept. *)
Lemma nan_risk_level_is_stored_as_null :
  (risk_level <$>
     rows (db (button_callback (replying nan_risk)
                 (callback_query alice "analyze") photo_taken).2))
  = [SqlNull].
Proof. vm_compute. reflexivity. Qed.

Lemma list_risk_level_is_refused :
  button_callback (replying odd_risk) (callback_query alice "analyze")
    photo_taken
  = (Raise SqliteError,
     with_trace photo_taken
       [answer;
        edit_message_text [Lit "🤖 Анализирую с Gemini..."] None false;
        gemini_request (prompt_of (PyStr "Sugar") "analyze")]).
Proof. vm_compute. reflexivity. Qed.

(** ** C4: the extraction rule *)

(** C4 (amended). On a response with status 200 whose first candidate holds a
    text, the payload handed to [json.loads] is the span of that text from its
    first opening brace to its last closing brace; what [json.loads] makes of
    it is returned as it is, with no check of its fields, and [None] is
    returned when [json.loads] refuses it or when no closing brace follows the
    first opening brace. *)
Theorem extraction_spans_first_to_last_brace
    (E : env) (text : pyval) (mode : string) (st : state) (result : pyval)
    (content : string) :
  gemini_post E (prompt_of text mode) = HttpResponse 200 (Ret result) ->
  gemini_content result = Ret (PyStr content) ->
  match from_first_brace content ≫= upto_last_brace with
  | Some group =>
      (exists pre mid post,
         content = pre +:+ group +:+ post
         /\ group = "{" +:+ mid +:+ "}"
         /\ contains "{"%char pre = false
         /\ contains "}"%char post = false)
      /\ (analyze_with_gemini E text mode st).1
         = Ret (default PyNone (json_loads E group))
  | None =>
      (contains "{"%char content = false
       \/ exists pre r,
            content = pre +:+ String "{"%char r
            /\ contains "{"%char pre = false
            /\ contains "}"%char r = false)
      /\ (analyze_with_gemini E text mode st).1 = Ret PyNone
  end.
Proof.
  intros Hpost Hcontent.
  rewrite analyze_with_gemini_run. cbn [fst].
  unfold gemini_exchange. rewrite Hpost. cbn [Z.eqb Pos.eqb].
  rewrite (extract_json_text E result content Hcontent).
  destruct (from_first_brace content ≫= upto_last_brace) as [group|] eqn:Hm.
  - split; [by apply re_search_match|].
    destruct (json_loads E group); reflexivity.
  - split; [by apply re_search_no_match|]. reflexivity.
Qed.

Lemma extraction_spans_first_to_last_brace_witness :
  gemini_post chatty (prompt_of (PyStr "Sugar") "analyze")
    = HttpResponse 200 (Ret (gemini_body two_objects))
  /\ gemini_content (gemini_body two_objects) = Ret (PyStr two_objects)
  /\ (analyze_with_gemini chatty (PyStr "Sugar") "analyze" empty_state).1
     = Ret (default PyNone (json_loads chatty two_objects)).
Proof.
  split; [reflexivity|]. split; [reflexivity|].
  exact (proj2 (extraction_spans_first_to_last_brace chatty (PyStr "Sugar")
                  "analyze" empty_state (gemini_body two_objects) two_objects
                  eq_refl eq_refl)).
Defined.

(** C4 (as stated, refuted). A reply that holds the object [snack_text]
    twice: its first balanced object is [snack_text], which parses to [snack],
    yet the regular expression matches the whole reply and the gateway returns
    [None]. And [snack], which lacks the advice and the list fields, is
    returned as it is when the reply holds it once. *)
Lemma extraction_misses_first_object :
  spec_first_balanced_object two_objects = Some snack_text
  /\ json_loads chatty snack_text = Some snack
  /\ re_search (PyStr two_objects) = Ret (Some two_objects)
  /\ (analyze_with_gemini chatty (PyStr "Sugar") "analyze" empty_state).1
     = Ret PyNone
  /\ (analyze_with_gemini sugar (PyStr "Sugar") "analyze" empty_state).1
     = Ret snack
  /\ assoc_get [("productName", PyStr "Snack"); ("verdict", PyStr "ok");
                ("riskLevel", PyStr "extreme")] "advice" = None.
Proof. vm_compute. repeat split. Qed.

(** ** C5: the history write fails *)

(** C5 (amended). When the engine fails on the history write, the exception
    leaves [button_callback]: the last message shown is the progress notice,
    the handler logs nothing, no row is written and the analysis is not kept
    in the session. *)
Theorem failed_append_aborts_analyze
    (E : env) (user : User.t) (st : state) (composition analysis : pyval)
    (params : sqlval * sqlval * sqlval * sqlval * sqlval * sqlval) :
  user_data st !! "last_composition" = Some composition ->
  py_truthy composition = true ->
  gemini_exchange E (prompt_of composition "analyze") = Ret analysis ->
  py_truthy analysis = true ->
  insert_params E user composition analysis = Ret params ->
  sqlite_fails E = true ->
  button_callback E (callback_query user "analyze") st =
    (Raise SqliteError,
     with_trace st
       [answer;
        edit_message_text [Lit "🤖 Анализирую с Gemini..."] None false;
        gemini_request (prompt_of composition "analyze")]).
Proof.
  intros Hcomp Htc Hex Hta Hparams Hfail.
  rewrite (analyze_run E user st composition Hcomp Htc).
  rewrite Hex. cbn [caught logged]. rewrite Hta, Hparams, Hfail.
  by rewrite app_nil_r.
Qed.

Lemma failed_append_aborts_analyze_witness :
  user_data photo_taken !! "last_composition" = Some (PyStr "Sugar")
  /\ py_truthy (PyStr "Sugar") = true
  /\ gemini_exchange outage (prompt_of (PyStr "Sugar") "analyze") = Ret snack
  /\ py_truthy snack = true
  /\ insert_params outage alice (PyStr "Sugar") snack
     = Ret (SqlText "alice", SqlText "Snack", SqlText "Sugar", SqlText "ok",
            SqlText "extreme", SqlText snack_text)
  /\ sqlite_fails outage = true
  /\ button_callback outage (callback_query alice "analyze") photo_taken =
       (Raise SqliteError,
        with_trace photo_taken
          [answer;
           edit_message_text [Lit "🤖 Анализирую с Gemini..."] None false;
           gemini_request (prompt_of (PyStr "Sugar") "analyze")]).
Proof.
  repeat (split; [reflexivity|]).
  exact (failed_append_aborts_analyze outage alice photo_taken (PyStr "Sugar")
           snack _ eq_refl eq_refl eq_refl eq_refl eq_refl eq_refl).
Defined.

(** C5 (as stated, refuted). With the engine down, pressing [analyze] after a
    photo raises the engine's error; the trace ends with the request to the
    gateway, so no analysis is presented, and the session holds no analysis. *)
Lemma failed_append_suppresses_analysis :
  (button_callback outage (callback_query alice "analyze") photo_taken).1
    = Raise SqliteError
  /\ trace (button_callback outage (callback_query alice "analyze")
              photo_taken).2
     = [answer;
        edit_message_text [Lit "🤖 Анализирую с Gemini..."] None false;
        gemini_request (analyze_prompt (PyStr "Sugar"))]
  /\ user_data (button_callback outage (callback_query alice "analyze")
                  photo_taken).2 !! "last_analysis" = None.
Proof. vm_compute. repeat split. Qed.

(** ** C6: the clear-history command *)

(** C6 (code as it is). [main] registers no handler for the command [clear]
    that [help_text] announces: the update is dropped and the bot is left as it
    was, the user's rows included. *)
Theorem clear_command_is_dropped (E : env) (user : User.t) (w : world) :
  dispatch E main (command_message user "clear") = None
  /\ process_update E (command_message user "clear") w = w.
Proof. split; reflexivity. Qed.

(** C6 (code at the failing input). Alice has one row in the history; after
    her [/clear] the row is still there. *)
Lemma clear_leaves_rows :
  (user_id <$> rows (w_db analyzed)) = [7]
  /\ (user_id <$> rows (w_db clear_requested)) = [7].
Proof. vm_compute. split; reflexivity. Qed.

(** ** C7: cancel *)

(** C7 (amended). Choosing [cancel] answers the query and replaces the message
    by the cancel notice; every session, the table and the files are left as
    they were. *)
Theorem cancel_leaves_session (E : env) (user : User.t) (w : world) :
  let w' := process_update E (callback_query user "cancel") w in
  (forall uid, session_of w' uid = session_of w uid)
  /\ w_db w' = w_db w
  /\ w_files w' = w_files w
  /\ w_trace w' =
       w_trace w ++ [answer; edit_message_text [Lit "❌ Отменено"] None false].
Proof.
  intros w'. subst w'. unfold process_update. simpl.
  repeat split.
  - intros uid. unfold session_of at 1. simpl.
    destruct (decide (User.id user = uid)) as [->|Hne].
    + by rewrite lookup_insert_eq.
    + by rewrite lookup_insert_ne.
  - by rewrite <- app_assoc.
Qed.

(** C7 (as stated, refuted). After a photo and an analysis, [cancel] leaves
    both the recognized text and the analysis in the session. *)
Lemma cancel_keeps_text_and_analysis :
  session_of cancelled 7 !! "last_composition" = Some (PyStr "Sugar")
  /\ session_of cancelled 7 !! "last_analysis" = Some snack.
Proof. vm_compute. split; reflexivity. Qed.

(** ** C8: back to the analysis *)

(** C8 (amended). On [back_to_analysis] the message is replaced by the risk
    glyph, the product name and the verdict of the analysis kept in the
    session; when no analysis is kept, the same layout is shown filled with
    the defaults of the three fields, and no error is presented. *)
Theorem back_shows_kept_analysis_or_defaults
    (E : env) (user : User.t) (st : state) :
  (user_data st !! "last_analysis" = None ->
   button_callback E (callback_query user "back_to_analysis") st =
     (Ret tt,
      with_trace st
        [answer;
         edit_message_text (back_text "❓" (PyStr "Продукт") (PyStr "?"))
           (Some analysis_keyboard) true]))
  /\ (forall d glyph,
        user_data st !! "last_analysis" = Some (PyDict d) ->
        risk_emoji (default PyNone (assoc_get d "riskLevel")) = Ret glyph ->
        button_callback E (callback_query user "back_to_analysis") st =
          (Ret tt,
           with_trace st
             [answer;
              edit_message_text
                (back_text glyph
                   (default (PyStr "Продукт") (assoc_get d "productName"))
                   (default (PyStr "?") (assoc_get d "verdict")))
                (Some analysis_keyboard) true])).
Proof.
  split.
  - intros Hnone. rewrite back_run, Hnone. reflexivity.
  - intros d glyph Hsome Hglyph. rewrite back_run, Hsome.
    unfold format_back. simpl. simpl in Hglyph. rewrite Hglyph. reflexivity.
Qed.

Lemma back_shows_kept_analysis_or_defaults_witness :
  user_data empty_state !! "last_analysis" = None
  /\ button_callback sugar (callback_query alice "back_to_analysis")
       empty_state =
       (Ret tt,
        with_trace empty_state
          [answer;
           edit_message_text (back_text "❓" (PyStr "Продукт") (PyStr "?"))
             (Some analysis_keyboard) true]).
Proof.
  split; [reflexivity|].
  apply (proj1 (back_shows_kept_analysis_or_defaults sugar alice empty_state)).
  reflexivity.
Defined.

(** C8 (as stated, refuted). With no analysis in the session, the [back]
    button shows an analysis made of defaults: an unknown-risk glyph, the
    product name [Продукт] and the verdict [?]. *)
Lemma back_without_analysis_shows_placeholder :
  button_callback sugar (callback_query alice "back_to_analysis") empty_state
  = (Ret tt,
     {| user_data := ∅; db := init_db; files := ∅;
        trace :=
          [answer;
           edit_message_text
             [Lit "**"; Lit "❓"; Lit " "; Fmt (PyStr "Продукт");
              Lit ("**" +:+ LF +:+ LF +:+ "**Вердикт:** "); Fmt (PyStr "?");
              Lit LF]
             (Some analysis_keyboard) true] |}).
Proof. reflexivity. Qed.

(** ** C9: the history listing *)

(** C9. For every user and every sequence of history writes, whoever wrote
    them and in whatever order, the query of [history] returns at most 10 rows,
    each a row of the table that belongs to the invoking user, in descending
    order of creation time. *)
Theorem history_listing_bounded_own_newest_first
    (writes : list history_write) (t0 : table) (uid : Z) :
  let listed := select_rows uid (table_after writes t0) in
  (List.length listed <= 10)%nat
  /\ Forall (λ r, user_id r = uid /\ r ∈ rows (table_after writes t0)) listed
  /\ StronglySorted newer_first listed.
Proof.
  intros listed. subst listed. unfold select_rows. split; [|split].
  - rewrite length_take. lia.
  - apply Forall_forall. intros r Hr.
    apply subseteq_take in Hr. apply (proj1 (order_by_elem _ _)) in Hr.
    apply list_elem_of_filter in Hr. tauto.
  - apply take_sorted, order_by_sorted.
Qed.

(** After interleaved writes of Bob and Alice, the listing of Alice holds her
    row only and the listing of Bob his two rows, the later one first. *)
Lemma listing_after_taking_turns :
  (user_id <$> rows (w_db taking_turns)) = [8; 7; 8]
  /\ (row_id <$> select_rows 7 (w_db taking_turns)) = [2]
  /\ (row_id <$> select_rows 8 (w_db taking_turns)) = [3; 1].
Proof. vm_compute. repeat split. Qed.

(** ** C10: the gateways never raise *)

(** C10 (amended). Both gateways return for every input and never raise:
    [ocr_recognize] returns [None] or a [str], [None] when the photo cannot be
    read, when the exchange raises, when the status is not 200 or when the
    response cannot be traversed, and the concatenated text (the empty string
    when the response holds no text) otherwise; [analyze_with_gemini] returns
    [None] in all these cases and also when no closing brace follows the first
    opening brace or [json.loads] refuses the match. Each caller presents an
    error when the value it receives is falsy. *)
Theorem gateways_return_and_callers_branch (E : env) (st : state) :
  (forall photo_path,
     exists v tr,
       ocr_recognize E photo_path st = (Ret v, with_trace st tr)
       /\ (v = PyNone \/ exists s, v = PyStr s))
  /\ (forall text mode,
        exists v tr,
          analyze_with_gemini E text mode st = (Ret v, with_trace st tr))
  /\ (forall photo_path,
        files st !! photo_path = None ->
        (ocr_recognize E photo_path st).1 = Ret PyNone)
  /\ (forall photo_path image_data,
        files st !! photo_path = Some image_data ->
        (ocr_recognize E photo_path st).1 =
          Ret match vision_post E image_data with
              | HttpResponse status (Ret result) =>
                  if status =? 200
                  then match ocr_text result with
                       | Ret text => PyStr text
                       | Raise _ => PyNone
                       end
                  else PyNone
              | _ => PyNone
              end)
  /\ (forall text mode,
        (analyze_with_gemini E text mode st).1 =
          Ret match gemini_post E (prompt_of text mode) with
              | HttpResponse status (Ret result) =>
                  if status =? 200
                  then match gemini_content result with
                       | Ret (PyStr content) =>
                           match from_first_brace content ≫= upto_last_brace
                           with
                           | Some group => default PyNone (json_loads E group)
                           | None => PyNone
                           end
                       | _ => PyNone
                       end
                  else PyNone
              | _ => PyNone
              end)
  /\ (forall update bytes,
        download_to_drive E = Ret bytes ->
        py_truthy (caught (vision_exchange E bytes)) = false ->
        exists st',
          handle_photo E update st = (Ret tt, st')
          /\ user_data st' = user_data st
          /\ last (trace st')
             = Some (reply_text
                       [Lit "❌ Не удалось распознать текст. Попробуй еще раз."]
                       None false))
  /\ (forall user composition,
        user_data st !! "last_composition" = Some composition ->
        py_truthy composition = true ->
        py_truthy (caught (gemini_exchange E
                             (prompt_of composition "analyze"))) = false ->
        exists st',
          button_callback E (callback_query user "analyze") st = (Ret tt, st')
          /\ user_data st' = user_data st
          /\ db st' = db st
          /\ last (trace st')
             = Some (edit_message_text [Lit "❌ Ошибка анализа"] None false))
  /\ (forall user,
        py_truthy (caught (gemini_exchange E
                             (prompt_of
                                (default PyNone
                                   (user_data st !! "last_composition"))
                                "recipes"))) = false ->
        exists st',
          button_callback E (callback_query user "recipes") st = (Ret tt, st')
          /\ user_data st' = user_data st
          /\ last (trace st')
             = Some (edit_message_text [Lit "❌ Не удалось получить рецепты"]
                       None false)).
Proof.
  split; [|split; [|split; [|split; [|split; [|split; [|split]]]]]].
  - intros photo_path. destruct (files st !! photo_path) as [image|] eqn:Hf.
    + rewrite (ocr_recognize_run E photo_path st image Hf).
      eexists _, _. split; [reflexivity|]. apply vision_exchange_shape.
    + rewrite (ocr_recognize_no_file E photo_path st Hf). eauto.
  - intros text mode. rewrite analyze_with_gemini_run. eauto.
  - intros photo_path Hf. by rewrite (ocr_recognize_no_file E photo_path st Hf).
  - intros photo_path image Hf.
    rewrite (ocr_recognize_run E photo_path st image Hf). cbn [fst].
    by rewrite caught_vision_exchange.
  - intros text mode. rewrite analyze_with_gemini_run. cbn [fst].
    by rewrite caught_gemini_exchange.
  - intros update bytes Hdl Hfalsy.
    rewrite (handle_photo_not_recognized E update st bytes Hdl Hfalsy).
    eexists. split; [reflexivity|]. split; [reflexivity|].
    cbn [trace]. rewrite !app_assoc. apply last_snoc.
  - intros user composition Hcomp Htc Hfalsy.
    rewrite (analyze_run E user st composition Hcomp Htc), Hfalsy.
    eexists. split; [reflexivity|]. split; [reflexivity|].
    split; [reflexivity|].
    unfold with_trace. cbn [trace]. rewrite !app_assoc. apply last_snoc.
  - intros user Hfalsy.
    destruct (recipes_run E user st) as [Hrun _].
    rewrite (Hrun Hfalsy).
    eexists. split; [reflexivity|]. split; [reflexivity|].
    unfold with_trace. cbn [trace]. rewrite !app_assoc. apply last_snoc.
Qed.

Lemma gateways_return_and_callers_branch_witness :
  download_to_drive blank = Ret "jpeg"
  /\ py_truthy (caught (vision_exchange blank "jpeg")) = false
  /\ exists st',
       handle_photo blank (photo_message alice) empty_state = (Ret tt, st')
       /\ user_data st' = user_data empty_state
       /\ last (trace st')
          = Some (reply_text
                    [Lit "❌ Не удалось распознать текст. Попробуй еще раз."]
                    None false).
Proof.
  split; [reflexivity|]. split; [reflexivity|].
  destruct (gateways_return_and_callers_branch blank empty_state)
    as (_ & _ & _ & _ & _ & Hphoto & _).
  exact (Hphoto (photo_message alice) "jpeg" eq_refl eq_refl).
Defined.

(** C10 (as stated, refuted). A Vision response with status 200 and nothing
    to extract: [ocr_recognize] returns the empty string, not [None]. *)
Lemma ocr_recognize_returns_empty_string :
  files downloaded !! "/tmp/7_1730000000.5.jpg" = Some "jpeg"
  /\ vision_post blank "jpeg" = HttpResponse 200 (Ret (PyDict []))
  /\ (ocr_recognize blank "/tmp/7_1730000000.5.jpg" downloaded).1
     = Ret (PyStr EmptyString)
  /\ PyStr EmptyString <> PyNone.
Proof. vm_compute. repeat split. discriminate. Qed.

(** * Further properties of the code *)

(** ** Strings *)

Section StringFacts.

#[local] Arguments String.append !_ _ / : simpl nomatch.

Lemma string_app_nil_r s : s +:+ EmptyString = s.
Proof. induction s as [|a s IH]; simpl; [done|]. by rewrite IH. Qed.

Lemma string_app_assoc s1 s2 s3 : (s1 +:+ s2) +:+ s3 = s1 +:+ (s2 +:+ s3).
Proof. induction s1 as [|a s1 IH]; simpl; [done|]. by rewrite IH. Qed.

Lemma joined_app l1 l2 : joined (l1 ++ l2) = joined l1 +:+ joined l2.
Proof.
  induction l1 as [|s l1 IH]; simpl; [done|].
  by rewrite IH, string_app_assoc.
Qed.

Lemma py_len_app s1 s2 : py_len (s1 +:+ s2) = (py_len s1 + py_len s2)%nat.
Proof.
  induction s1 as [|a s1 IH]; simpl; [done|].
  destruct (is_continuation a); simpl; by rewrite IH.
Qed.

Lemma py_len_prefix n s : py_len (py_prefix n s) = (n `min` py_len s)%nat.
Proof.
  revert n. induction s as [|a s IH]; intros n; simpl.
  - by rewrite Nat.min_0_r.
  - destruct (is_continuation a) eqn:Ha; simpl; rewrite ?Ha.
    + apply IH.
    + destruct n as [|n]; simpl; [done|]. rewrite Ha. by rewrite IH.
Qed.

Lemma py_prefix_is_prefix n s : exists rest, s = py_prefix n s +:+ rest.
Proof.
  revert n. induction s as [|a s IH]; intros n; simpl.
  - by exists EmptyString.
  - destruct (is_continuation a).
    + destruct (IH n) as [rest Hrest]. exists rest. simpl. congruence.
    + destruct n as [|n]; [by exists (String a s)|].
      destruct (IH n) as [rest Hrest]. exists rest. simpl. congruence.
Qed.

Lemma py_prefix_all n s : (py_len s <= n)%nat -> py_prefix n s = s.
Proof.
  revert n. induction s as [|a s IH]; intros n; simpl; [done|].
  destruct (is_continuation a).
  - intros H. by rewrite IH.
  - destruct n as [|n]; [lia|]. intros H. rewrite IH; [done|lia].
Qed.

End StringFacts.

(** ** The text [ocr_recognize] returns *)

Lemma for_each_joined {A} (mk : A -> pyval)
    (body : pyval -> string -> outcome string) (g : A -> string) :
  (forall x acc, body (mk x) acc = Ret (acc +:+ g x)) ->
  forall items acc,
    for_each (mk <$> items) body acc = Ret (acc +:+ joined (g <$> items)).
Proof.
  intros Hbody. induction items as [|x items IH]; intros acc; simpl.
  - by rewrite string_app_nil_r.
  - rewrite Hbody. cbn [mbind outcome_bind]. rewrite IH.
    by rewrite string_app_assoc.
Qed.

Lemma ocr_word_vision_line ws text :
  ocr_word (vision_line ws) text = Ret (text +:+ joined ws).
Proof.
  unfold ocr_word, vision_line, iter_get. simpl.
  rewrite (for_each_joined vision_word ocr_symbol (λ t, t)); [|done].
  by rewrite list_fmap_id.
Qed.

Lemma ocr_line_vision_block ls text :
  ocr_line (vision_block ls) text = Ret (text +:+ joined (joined <$> ls)).
Proof.
  unfold ocr_line, vision_block, iter_get. simpl.
  apply (for_each_joined vision_line ocr_word joined), ocr_word_vision_line.
Qed.

Lemma ocr_block_vision_page bs text :
  ocr_block (vision_page bs) text
  = Ret (text +:+ joined ((λ ls, joined (joined <$> ls)) <$> bs)).
Proof.
  unfold ocr_block, vision_page, iter_get. simpl.
  apply (for_each_joined vision_block ocr_line), ocr_line_vision_block.
Qed.

Lemma ocr_result_item_vision_result ps text :
  ocr_result_item (vision_result ps) text
  = Ret (text +:+ joined ((λ bs, joined ((λ ls, joined (joined <$> ls))
                                           <$> bs)) <$> ps)).
Proof.
  unfold ocr_result_item, vision_result, iter_get. simpl.
  apply (for_each_joined vision_page ocr_block), ocr_block_vision_page.
Qed.

Lemma joined_mjoin (ll : list (list string)) :
  joined (joined <$> ll) = joined (mjoin ll).
Proof.
  induction ll as [|l ll IH]; [done|].
  change (joined (joined <$> (l :: ll)))
    with (joined l +:+ joined (joined <$> ll)).
  change (mjoin (l :: ll)) with (l ++ mjoin ll).
  by rewrite joined_app, IH.
Qed.

Lemma joined_nested {A} (F : A -> list string) (l : list A) :
  joined ((λ x, joined (F x)) <$> l) = joined (mjoin (F <$> l)).
Proof.
  induction l as [|x l IH]; [done|].
  change (joined ((λ x, joined (F x)) <$> (x :: l)))
    with (joined (F x) +:+ joined ((λ x, joined (F x)) <$> l)).
  change (mjoin (F <$> x :: l)) with (F x ++ mjoin (F <$> l)).
  by rewrite joined_app, IH.
Qed.

Lemma ocr_text_vision_response rs :
  ocr_text (vision_response rs) = Ret (joined (response_words rs)).
Proof.
  unfold ocr_text, vision_response, iter_get. simpl.
  rewrite (for_each_joined vision_result ocr_result_item
             (λ ps, joined (result_words ps))).
  - by rewrite joined_nested.
  - intros ps acc. rewrite ocr_result_item_vision_result.
    unfold result_words, page_words, block_words.
    rewrite <- joined_nested. do 3 f_equal.
    apply list_fmap_ext. intros _ bs _.
    rewrite <- joined_nested. f_equal.
    apply list_fmap_ext. intros _ ls _. apply joined_mjoin.
Qed.

(** X1. On a status-200 response of the documented shape, [ocr_recognize]
    returns the texts of all words, in reading order, with nothing added
    between them, and logs nothing. *)
Theorem ocr_recognize_concatenates_words
    (E : env) (photo_path image_data : string) (st : state)
    (rs : list (list (list (list (list string))))) :
  files st !! photo_path = Some image_data ->
  vision_post E image_data = HttpResponse 200 (Ret (vision_response rs)) ->
  ocr_recognize E photo_path st =
    (Ret (PyStr (joined (response_words rs))),
     with_trace st [vision_request image_data]).
Proof.
  intros Hfile Hpost.
  rewrite (ocr_recognize_run E photo_path st image_data Hfile).
  unfold vision_exchange. rewrite Hpost. cbn [mbind outcome_bind Z.eqb Pos.eqb].
  rewrite ocr_text_vision_response. reflexivity.
Qed.

Lemma ocr_recognize_concatenates_words_witness :
  files downloaded !! "/tmp/7_1730000000.5.jpg" = Some "jpeg"
  /\ ocr_recognize label_photo "/tmp/7_1730000000.5.jpg" downloaded =
       (Ret (PyStr "Sugar, Salt"), with_trace downloaded [vision_request "jpeg"]).
Proof.
  split; [reflexivity|].
  exact (ocr_recognize_concatenates_words label_photo
           "/tmp/7_1730000000.5.jpg" "jpeg" downloaded
           [[[[["Sugar"; ", "]; ["Salt"]]]]] eq_refl eq_refl).
Defined.

Lemma for_each_app {A B} (l1 l2 : list A) (body : A -> B -> outcome B) acc :
  for_each (l1 ++ l2) body acc = for_each l1 body acc ≫= for_each l2 body.
Proof.
  revert acc. induction l1 as [|x l1 IH]; intros acc; simpl; [done|].
  destruct (body x acc) as [acc'|e]; simpl; [apply IH | done].
Qed.

Lemma for_each_skip {A B} (l1 l2 : list A) x (body : A -> B -> outcome B) acc :
  (forall acc', body x acc' = Ret acc') ->
  for_each (l1 ++ x :: l2) body acc = for_each (l1 ++ l2) body acc.
Proof.
  intros Hskip. rewrite !for_each_app.
  destruct (for_each l1 body acc) as [acc'|e]; simpl; [|done].
  by rewrite Hskip.
Qed.

Lemma for_each_raises {A B} (items : list A) x (body : A -> B -> outcome B) acc :
  x ∈ items ->
  (forall acc', exists e, body x acc' = Raise e) ->
  exists e, for_each items body acc = Raise e.
Proof.
  intros Hin Hraise. revert acc.
  induction items as [|y items IH]; intros acc; [by apply elem_of_nil in Hin|].
  apply elem_of_cons in Hin as [<-|Hin]; simpl.
  - destruct (Hraise acc) as [e ->]. by exists e.
  - destruct (body y acc) as [acc'|e]; simpl; [by apply IH | by exists e].
Qed.

(** X2. An entry of a Vision response that lacks its list field, or a word
    that lacks its text, contributes nothing: at each of the five levels it
    can be removed from the list it is in without changing what the loops
    compute. *)
Theorem ocr_absent_fields_contribute_nothing
    (l1 l2 : list pyval) (d : list (string * pyval)) (text : string) :
  (assoc_get d "textDetection" = None ->
   for_each (l1 ++ PyDict d :: l2) ocr_result_item text
   = for_each (l1 ++ l2) ocr_result_item text)
  /\ (assoc_get d "blocks" = None ->
      for_each (l1 ++ PyDict d :: l2) ocr_block text
      = for_each (l1 ++ l2) ocr_block text)
  /\ (assoc_get d "lines" = None ->
      for_each (l1 ++ PyDict d :: l2) ocr_line text
      = for_each (l1 ++ l2) ocr_line text)
  /\ (assoc_get d "words" = None ->
      for_each (l1 ++ PyDict d :: l2) ocr_word text
      = for_each (l1 ++ l2) ocr_word text)
  /\ (assoc_get d "text" = None ->
      for_each (l1 ++ PyDict d :: l2) ocr_symbol text
      = for_each (l1 ++ l2) ocr_symbol text).
Proof.
  repeat split; intros Hnone; apply for_each_skip; intros acc.
  - unfold ocr_result_item. simpl. by rewrite Hnone.
  - unfold ocr_block, iter_get. simpl. by rewrite Hnone.
  - unfold ocr_line, iter_get. simpl. by rewrite Hnone.
  - unfold ocr_word, iter_get. simpl. by rewrite Hnone.
  - unfold ocr_symbol. simpl. rewrite Hnone. simpl.
    by rewrite string_app_nil_r.
Qed.

Lemma ocr_absent_fields_contribute_nothing_witness :
  assoc_get [("confidence", PyInt 1)] "words" = None
  /\ for_each ([vision_line ["Sugar"]]
               ++ PyDict [("confidence", PyInt 1)] :: [vision_line ["Salt"]])
       ocr_word EmptyString
     = for_each ([vision_line ["Sugar"]] ++ [vision_line ["Salt"]])
         ocr_word EmptyString.
Proof.
  split; [reflexivity|].
  destruct (ocr_absent_fields_contribute_nothing [vision_line ["Sugar"]]
              [vision_line ["Salt"]] [("confidence", PyInt 1)] EmptyString)
    as (_ & _ & _ & Hwords & _).
  exact (Hwords eq_refl).
Defined.

(** X3. A [textDetection] that is present but null in any one result makes
    the whole recognition fail: although the status is 200, [ocr_recognize]
    logs an error and returns [None], whatever the other results hold. *)
Theorem ocr_null_detection_loses_all_text
    (E : env) (photo_path image_data : string) (st : state)
    (body d : list (string * pyval)) (items : list pyval) :
  files st !! photo_path = Some image_data ->
  vision_post E image_data = HttpResponse 200 (Ret (PyDict body)) ->
  assoc_get body "results" = Some (PyList items) ->
  PyDict d ∈ items ->
  assoc_get d "textDetection" = Some PyNone ->
  exists e,
    ocr_recognize E photo_path st =
      (Ret PyNone,
       with_trace st
         [vision_request image_data;
          logger_error [Lit "OCR error: "; FmtExn e]]).
Proof.
  intros Hfile Hpost Hresults Hin Hnull.
  rewrite (ocr_recognize_run E photo_path st image_data Hfile).
  unfold vision_exchange. rewrite Hpost. cbn [mbind outcome_bind Z.eqb Pos.eqb].
  unfold ocr_text, iter_get. simpl. rewrite Hresults. simpl.
  destruct (for_each_raises items (PyDict d) ocr_result_item EmptyString Hin)
    as [e He].
  { intros acc. exists AttributeError. unfold ocr_result_item. simpl.
    by rewrite Hnull. }
  rewrite He. by exists e.
Qed.

Lemma ocr_null_detection_loses_all_text_witness :
  files downloaded !! "/tmp/7_1730000000.5.jpg" = Some "jpeg"
  /\ (PyDict [("textDetection", PyNone)]
        ∈ [vision_result [[[["Sugar"]]]]; PyDict [("textDetection", PyNone)]])
  /\ exists e,
       ocr_recognize null_detection "/tmp/7_1730000000.5.jpg" downloaded =
         (Ret PyNone,
          with_trace downloaded
            [vision_request "jpeg";
             logger_error [Lit "OCR error: "; FmtExn e]]).
Proof.
  assert (Hin : PyDict [("textDetection", PyNone)]
                  ∈ [vision_result [[[["Sugar"]]]];
                     PyDict [("textDetection", PyNone)]]).
  { apply elem_of_cons. right. apply elem_of_cons. by left. }
  split; [reflexivity|]. split; [exact Hin|].
  exact (ocr_null_detection_loses_all_text null_detection
           "/tmp/7_1730000000.5.jpg" "jpeg" downloaded _ _ _
           eq_refl eq_refl eq_refl Hin eq_refl).
Defined.

(** ** Status codes *)

(** X4. With a status other than 200 both gateways return [None]. The
    analysis gateway does not look at the body and logs nothing; the
    recognition gateway decodes the body first, so a body that is not JSON is
    logged as an error, whatever the status. *)
Theorem gateways_on_error_status (E : env) (st : state) :
  (forall text mode status json,
     gemini_post E (prompt_of text mode) = HttpResponse status json ->
     status <> 200 ->
     analyze_with_gemini E text mode st =
       (Ret PyNone, with_trace st [gemini_request (prompt_of text mode)]))
  /\ (forall photo_path image_data status result,
        files st !! photo_path = Some image_data ->
        vision_post E image_data = HttpResponse status (Ret result) ->
        status <> 200 ->
        ocr_recognize E photo_path st =
          (Ret PyNone, with_trace st [vision_request image_data]))
  /\ (forall photo_path image_data status e,
        files st !! photo_path = Some image_data ->
        vision_post E image_data = HttpResponse status (Raise e) ->
        ocr_recognize E photo_path st =
          (Ret PyNone,
           with_trace st
             [vision_request image_data;
              logger_error [Lit "OCR error: "; FmtExn e]])).
Proof.
  split; [|split].
  - intros text mode status json Hpost Hne.
    rewrite analyze_with_gemini_run. unfold gemini_exchange. rewrite Hpost.
    apply Z.eqb_neq in Hne. by rewrite Hne.
  - intros photo_path image status result Hfile Hpost Hne.
    rewrite (ocr_recognize_run E photo_path st image Hfile).
    unfold vision_exchange. rewrite Hpost. cbn [mbind outcome_bind].
    apply Z.eqb_neq in Hne. by rewrite Hne.
  - intros photo_path image status e Hfile Hpost.
    rewrite (ocr_recognize_run E photo_path st image Hfile).
    unfold vision_exchange. by rewrite Hpost.
Qed.

Lemma gateways_on_error_status_witness :
  gemini_post unavailable (prompt_of (PyStr "Sugar") "analyze")
    = HttpResponse 503 (Raise JSONDecodeError)
  /\ 503 <> 200
  /\ analyze_with_gemini unavailable (PyStr "Sugar") "analyze" empty_state =
       (Ret PyNone,
        with_trace empty_state
          [gemini_request (prompt_of (PyStr "Sugar") "analyze")])
  /\ ocr_recognize unavailable "/tmp/7_1730000000.5.jpg" downloaded =
       (Ret PyNone,
        with_trace downloaded
          [vision_request "jpeg";
           logger_error [Lit "OCR error: "; FmtExn JSONDecodeError]]).
Proof.
  assert (Hne : 503 <> 200) by discriminate.
  destruct (gateways_on_error_status unavailable empty_state) as [Hg _].
  destruct (gateways_on_error_status unavailable downloaded) as (_ & _ & Ho).
  split; [reflexivity|]. split; [exact Hne|]. split.
  - exact (Hg (PyStr "Sugar") "analyze" 503 _ eq_refl Hne).
  - exact (Ho "/tmp/7_1730000000.5.jpg" "jpeg" 503 _ eq_refl eq_refl).
Defined.

(** ** The match of the regular expression *)

Section BraceSearch.

#[local] Arguments String.append !_ _ / : simpl nomatch.

Lemma from_first_brace_complete pre r :
  contains "{"%char pre = false ->
  from_first_brace (pre +:+ String "{"%char r) = Some (String "{"%char r).
Proof.
  induction pre as [|a pre IH]; simpl; [done|].
  destruct (Ascii.eqb a "{"%char); [discriminate|]. exact IH.
Qed.

Lemma upto_last_brace_absent s :
  contains "}"%char s = false -> upto_last_brace s = None.
Proof.
  induction s as [|a s IH]; simpl; [done|].
  destruct (Ascii.eqb a "}"%char); [discriminate|]. simpl.
  intros H. by rewrite IH.
Qed.

Lemma upto_last_brace_complete m post :
  contains "}"%char post = false ->
  upto_last_brace ((m +:+ "}") +:+ post) = Some (m +:+ "}").
Proof.
  intros Hpost. induction m as [|a m IH]; simpl.
  - by rewrite upto_last_brace_absent.
  - by rewrite IH.
Qed.

(** X5. The text handed to [json.loads] is characterised exactly: it is [g]
    if and only if the content splits into a part without opening brace, then
    [g], which opens with a brace and closes with one, then a part without
    closing brace. In particular one object, nested braces included, between
    two stretches of prose without braces is extracted whole. *)
Theorem re_search_first_to_last (content g : string) :
  re_search (PyStr content) = Ret (Some g)
  <-> exists pre mid post,
        content = pre +:+ g +:+ post
        /\ g = "{" +:+ mid +:+ "}"
        /\ contains "{"%char pre = false
        /\ contains "}"%char post = false.
Proof.
  split.
  - intros [= Hm]. by apply re_search_match.
  - intros (pre & mid & post & -> & -> & Hpre & Hpost).
    cbn [re_search]. f_equal.
    change (("{" +:+ mid +:+ "}") +:+ post)
      with (String "{"%char ((mid +:+ "}") +:+ post)).
    rewrite from_first_brace_complete by done.
    cbn [mbind option_bind upto_last_brace].
    by rewrite upto_last_brace_complete.
Qed.

End BraceSearch.

Lemma re_search_first_to_last_witness :
  re_search (PyStr "ok {a{b}c} bye") = Ret (Some "{a{b}c}").
Proof.
  apply (proj2 (re_search_first_to_last "ok {a{b}c} bye" "{a{b}c}")).
  exists "ok ", "a{b}c", " bye". repeat split.
Defined.

(** ** [handle_photo] *)

Lemma handle_photo_download_fails E update st e :
  download_to_drive E = Raise e ->
  handle_photo E update st =
    (Ret tt,
     with_trace st
       [send_action_typing;
        logger_error [Lit "Photo handling error: "; FmtExn e];
        reply_text [Lit "❌ Ошибка: "; FmtExn e] None false]).
Proof.
  intros Hdl. unfold handle_photo. run_monad. rewrite Hdl. run_monad.
  rewrite <- !app_assoc. reflexivity.
Qed.

Lemma caught_str_inv (o : outcome pyval) s :
  caught o = PyStr s -> o = Ret (PyStr s).
Proof. destruct o; simpl; [by intros ->|discriminate]. Qed.



(** X7. The photo written under [/tmp] is removed when nothing is recognized
    and stays there when the recognition succeeds. *)
Theorem photo_file_removed_only_on_failure
    (E : env) (update : Update) (st : state) (bytes : string) :
  download_to_drive E = Ret bytes ->
  let photo_path := photo_path_of E (effective_user update) in
  let st' := (handle_photo E update st).2 in
  (py_truthy (caught (vision_exchange E bytes)) = false ->
   files st' !! photo_path = None)
  /\ (py_truthy (caught (vision_exchange E bytes)) = true ->
      files st' !! photo_path = Some bytes).
Proof.
  intros Hdl photo_path st'. subst st'. split; intros Htruthy.
  - rewrite (handle_photo_not_recognized E update st bytes Hdl Htruthy).
    cbn [snd files]. apply lookup_delete_eq.
  - destruct (vision_exchange_shape E bytes) as [Hnone|[s Hs]].
    { rewrite Hnone in Htruthy. discriminate. }
    rewrite Hs in Htruthy. apply caught_str_inv in Hs.
    assert (s <> EmptyString) as Hne.
    { intros ->. discriminate. }
    rewrite (handle_photo_recognized E update st bytes s Hdl Hs Hne).
    cbn [snd files]. apply lookup_insert_eq.
Qed.

Lemma photo_file_removed_only_on_failure_witness :
  download_to_drive blank = Ret "jpeg"
  /\ py_truthy (caught (vision_exchange blank "jpeg")) = false
  /\ files (handle_photo blank (photo_message alice) empty_state).2
       !! photo_path_of blank alice = None
  /\ py_truthy (caught (vision_exchange sugar "jpeg")) = true
  /\ files (handle_photo sugar (photo_message alice) empty_state).2
       !! photo_path_of sugar alice = Some "jpeg".
Proof.
  split; [reflexivity|]. split; [reflexivity|]. split.
  - exact (proj1 (photo_file_removed_only_on_failure blank
                    (photo_message alice) empty_state "jpeg" eq_refl) eq_refl).
  - split; [reflexivity|].
    exact (proj2 (photo_file_removed_only_on_failure sugar
                    (photo_message alice) empty_state "jpeg" eq_refl) eq_refl).
Defined.

(** X8. The preview shown after a recognition is the recognized text when it
    has at most 200 characters, and otherwise its first 200 characters
    followed by three dots: never more than 203 characters. *)
Theorem preview_is_bounded (s : string) :
  exists p,
    preview_of (PyStr s) = Ret p
    /\ (py_len p <= 203)%nat
    /\ ((py_len s <= 200)%nat -> p = s)
    /\ ((200 < py_len s)%nat ->
        p = py_prefix 200 s +:+ "..." /\ py_len p = 203%nat).
Proof.
  unfold preview_of.
  destruct (200 <? py_len s)%nat eqn:Hlen; eexists; (split; [reflexivity|]).
  - apply Nat.ltb_lt in Hlen.
    assert (py_len (py_prefix 200 s +:+ "...") = 203%nat) as Hp.
    { rewrite py_len_app, py_len_prefix.
      change (py_len "...") with 3%nat. lia. }
    split; [lia|]. split; [lia|]. done.
  - apply Nat.ltb_ge in Hlen. split; [lia|]. split; [done|lia].
Qed.

(** ** What the handlers do to the table *)

Lemma analyze_no_text E user st :
  py_truthy (default PyNone (user_data st !! "last_composition")) = false ->
  button_callback E (callback_query user "analyze") st =
    (Ret tt,
     with_trace st
       [answer; edit_message_text [Lit "❌ Текст не найден"] None false]).
Proof.
  intros Hfalsy. unfold button_callback. run_monad. rewrite Hfalsy.
  run_monad. rewrite <- !app_assoc. reflexivity.
Qed.

Lemma other_button_run E user data st :
  String.eqb data "analyze" = false ->
  String.eqb data "recipes" = false ->
  String.eqb data "back_to_analysis" = false ->
  button_callback E (callback_query user data) st =
    (Ret tt,
     with_trace st
       (answer :: if String.eqb data "cancel"
                  then [edit_message_text [Lit "❌ Отменено"] None false]
                  else [])).
Proof.
  intros H1 H2 H3. unfold button_callback. run_monad.
  rewrite H1, H2, H3. destruct (String.eqb data "cancel"); run_monad.
  - rewrite <- !app_assoc. reflexivity.
  - reflexivity.
Qed.

Lemma truthy_lookup (m : gmap string pyval) k :
  py_truthy (default PyNone (m !! k)) = true ->
  exists v, m !! k = Some v /\ py_truthy v = true.
Proof. destruct (m !! k) as [v|]; simpl; [eauto|discriminate]. Qed.

(** A press on a button leaves the session, the table and the files as they
    are, or it is a press on [analyze] that writes one row. *)
Lemma button_callback_step E update st :
  let st' := (button_callback E update st).2 in
  files st' = files st
  /\ ((user_data st' = user_data st /\ db st' = db st)
      \/ exists user composition params,
           update = callback_query user "analyze"
           /\ user_data st !! "last_composition" = Some composition
           /\ insert_params E user composition
                (caught (gemini_exchange E (prompt_of composition "analyze")))
              = Ret params
           /\ db st' = insert_row (current_timestamp E) (User.id user) params
                         (db st)).
Proof.
  destruct update as [user c|user|user data|user];
    try (split; [reflexivity|left; split; reflexivity]).
  destruct (String.eqb data "analyze") eqn:H1.
  { apply String.eqb_eq in H1 as ->.
    destruct (py_truthy (default PyNone (user_data st !! "last_composition")))
      eqn:Htruthy.
    - destruct (truthy_lookup _ _ Htruthy) as (composition & Hcomp & Htc).
      cbv zeta. rewrite (analyze_run E user st composition Hcomp Htc).
      destruct (py_truthy (caught _)); [|split; [done|left; done]].
      destruct (insert_params E user composition _) as [params|e] eqn:Hp;
        [|split; [done|left; done]].
      destruct (sqlite_fails E); [split; [done|left; done]|].
      destruct (format_analysis _);
        (split; [reflexivity|right; exists user, composition, params; done]).
    - cbv zeta. rewrite (analyze_no_text E user st Htruthy).
      split; [done|left; done]. }
  destruct (String.eqb data "recipes") eqn:H2.
  { apply String.eqb_eq in H2 as ->.
    destruct (recipes_run E user st) as (_ & o & tr' & Hrun).
    cbv zeta. rewrite Hrun. split; [done|left; done]. }
  destruct (String.eqb data "back_to_analysis") eqn:H3.
  { apply String.eqb_eq in H3 as ->. cbv zeta. rewrite back_run.
    destruct (format_back _); (split; [done|left; done]). }
  cbv zeta. rewrite (other_button_run E user data st H1 H2 H3).
  split; [done|left; done].
Qed.

Lemma handle_photo_db E update st : db (handle_photo E update st).2 = db st.
Proof.
  destruct (download_to_drive E) as [bytes|e] eqn:Hdl.
  - destruct (py_truthy (caught (vision_exchange E bytes))) eqn:Htruthy.
    + destruct (vision_exchange_shape E bytes) as [Hnone|[s Hs]].
      { rewrite Hnone in Htruthy. discriminate. }
      rewrite Hs in Htruthy. apply caught_str_inv in Hs.
      assert (s <> EmptyString) as Hne.
      { intros ->. discriminate. }
      by rewrite (handle_photo_recognized E update st bytes s Hdl Hs Hne).
    + by rewrite (handle_photo_not_recognized E update st bytes Hdl Htruthy).
  - by rewrite (handle_photo_download_fails E update st e Hdl).
Qed.

Lemma history_db E update st : db (history E update st).2 = db st.
Proof.
  unfold history, db_read, mbind, M_bind.
  destruct (sqlite_fails E); [reflexivity|].
  destruct (select_columns <$> _); reflexivity.
Qed.

Lemma dispatch_command E user c :
  dispatch E main (command_message user c) =
    let name := (command_parts c (bot_username E)).1 in
    let addressee := (command_parts c (bot_username E)).2 in
    if String.eqb (py_lower addressee) (py_lower (bot_username E)) then
      if String.eqb (py_lower name) "start" then Some start
      else if String.eqb (py_lower name) "help" then Some help_command
      else if String.eqb (py_lower name) "history" then Some history
      else None
    else None.
Proof.
  unfold dispatch, main, check_update.
  destruct (command_parts c (bot_username E)) as [name addressee].
  cbn [fst snd].
  change (py_lower "start") with "start".
  change (py_lower "help") with "help".
  change (py_lower "history") with "history".
  destruct (String.eqb (py_lower addressee) (py_lower (bot_username E)));
    rewrite ?andb_true_r, ?andb_false_r; [|done].
  destruct (String.eqb (py_lower name) "start"); [done|].
  destruct (String.eqb (py_lower name) "help"); [done|].
  destruct (String.eqb (py_lower name) "history"); done.
Qed.

Lemma dispatch_command_cases E user c :
  dispatch E main (command_message user c)
  ∈ [None; Some start; Some help_command; Some history].
Proof.
  rewrite dispatch_command. cbv zeta.
  repeat match goal with
         | |- context [if ?b then _ else _] => destruct b
         end; set_solver.
Qed.

(** An update leaves the table as it is, or it is a press on [analyze] and
    one row is inserted for the presser at the engine's time. *)
Lemma process_update_db E update w :
  w_db (process_update E update w) = w_db w
  \/ exists user params,
       update = callback_query user "analyze"
       /\ w_db (process_update E update w)
          = insert_row (current_timestamp E) (User.id user) params (w_db w).
Proof.
  unfold process_update.
  destruct update as [user c|user|user data|user].
  - left.
    pose proof (dispatch_command_cases E user c) as Hd.
    rewrite !elem_of_cons, elem_of_nil in Hd.
    destruct Hd as [->|[->|[->|[->|[]]]]]; [done..|].
    cbn [w_db]. apply history_db.
  - left. cbn [dispatch main check_update w_db]. apply handle_photo_db.
  - cbn [dispatch main check_update w_db effective_user].
    destruct (button_callback_step E (callback_query user data)
                {| user_data := session_of w (User.id user); db := w_db w;
                   files := w_files w; trace := w_trace w |})
      as [_ [[_ Hdb]|(user' & composition & params & Heq & _ & _ & Hdb)]].
    + left. exact Hdb.
    + right. injection Heq as <- ->. exists user, params. split; [done|].
      exact Hdb.
  - by left.
Qed.

Lemma insert_row_new now uid p t :
  exists r,
    rows (insert_row now uid p t) = rows t ++ [r]
    /\ seq (insert_row now uid p t) = seq t + 1
    /\ row_id r = seq t + 1
    /\ user_id r = uid
    /\ created_at r = now.
Proof.
  destruct p as [[[[[uname product] comp] verd] risk] dumped].
  eexists. repeat split.
Qed.

(** X9. The history is append-only: along any run of the bot, from any
    world, the rows present at the start stay where they are, unchanged, and
    rows are only added after them. *)
Theorem history_is_append_only (events : list (env * Update)) (w : world) :
  exists new, rows (w_db (run events w)) = rows (w_db w) ++ new.
Proof.
  revert w. induction events as [|[E update] events IH]; intros w; simpl.
  - exists []. by rewrite app_nil_r.
  - destruct (IH (process_update E update w)) as [new Hnew].
    destruct (process_update_db E update w)
      as [Hsame|(user & params & _ & Hins)].
    + exists new. by rewrite Hnew, Hsame.
    + destruct (insert_row_new (current_timestamp E) (User.id user) params
                  (w_db w)) as (r & Hrows & _).
      exists (r :: new). rewrite Hnew, Hins, Hrows.
      by rewrite <- app_assoc.
Qed.

(** X10. Only a press on [analyze] writes to the history, and it writes at
    most one row: the row belongs to the user who pressed, carries the
    engine's time and the next id. Every other update leaves the table as it
    is. *)
Theorem only_analyze_writes_one_row (E : env) (update : Update) (w : world) :
  w_db (process_update E update w) = w_db w
  \/ exists user r,
       update = callback_query user "analyze"
       /\ rows (w_db (process_update E update w)) = rows (w_db w) ++ [r]
       /\ user_id r = User.id user
       /\ created_at r = current_timestamp E
       /\ row_id r = seq (w_db w) + 1.
Proof.
  destruct (process_update_db E update w)
    as [Hsame|(user & params & Hupd & Hins)]; [by left|].
  right.
  destruct (insert_row_new (current_timestamp E) (User.id user) params
              (w_db w)) as (r & Hrows & _ & Hid & Huid & Hnow).
  exists user, r. rewrite Hins. done.
Qed.

Lemma ids_count_up_insert now uid p t :
  ids_count_up t -> ids_count_up (insert_row now uid p t).
Proof.
  intros [Hseq Hids].
  destruct (insert_row_new now uid p t) as (r & Hrows & Hseq' & Hid & _).
  unfold ids_count_up. rewrite Hrows, Hseq'. split.
  - rewrite length_app. simpl. lia.
  - rewrite fmap_app, Hids. simpl. rewrite Hid, Hseq.
    replace (Z.of_nat (List.length (rows t)) + 1)
      with (Z.of_nat (S (List.length (rows t)))) by lia.
    rewrite seqZ_S. do 2 f_equal. lia.
Qed.

Lemma ids_count_up_run events w :
  ids_count_up (w_db w) -> ids_count_up (w_db (run events w)).
Proof.
  revert w. induction events as [|[E update] events IH]; intros w Hw; simpl;
    [done|].
  apply IH.
  destruct (process_update_db E update w)
    as [->|(user & params & _ & ->)]; [done|].
  by apply ids_count_up_insert.
Qed.

(** X11. Whatever the updates and the answers of the outside world, the ids
    of the rows written since the start of the bot are 1, 2, 3, ... in the
    order of the rows: no id is given twice and none is skipped. *)
Theorem row_ids_count_up (events : list (env * Update)) :
  (row_id <$> rows (w_db (run events initial_world)))
  = seqZ 1 (Z.of_nat (List.length (rows (w_db (run events initial_world))))).
Proof.
  destruct (ids_count_up_run events initial_world) as [Hseq Hids].
  { split; reflexivity. }
  by rewrite <- Hseq.
Qed.

(** ** The listing of [history] *)

Lemma insert_desc_perm r l : insert_desc r l ≡ₚ r :: l.
Proof.
  induction l as [|r' l IH]; simpl; [done|].
  destruct (created_at r' <=? created_at r); [done|].
  rewrite IH. apply Permutation_swap.
Qed.

Lemma order_by_perm l : order_by_created_at_desc l ≡ₚ l.
Proof.
  induction l as [|r l IH]; simpl; [done|].
  by rewrite insert_desc_perm, IH.
Qed.

Lemma sorted_app_pairs {A} (R : A -> A -> Prop) (l1 l2 : list A) :
  StronglySorted R (l1 ++ l2) ->
  forall a b, a ∈ l1 -> b ∈ l2 -> R a b.
Proof.
  induction l1 as [|x l1 IH]; simpl; intros Hs a b Ha Hb.
  - by apply elem_of_nil in Ha.
  - apply StronglySorted_inv in Hs as [Hs Hall].
    apply elem_of_cons in Ha as [->|Ha]; [|by apply IH].
    rewrite Forall_forall in Hall. apply Hall.
    apply elem_of_app. by right.
Qed.

(** X12. The listing holds the ten newest rows of the user, or all of them
    when there are fewer: its length is the smaller of 10 and the number of
    the user's rows, and every row of the user that is left out is at most as
    recent as every row listed. *)
Theorem history_lists_the_ten_newest (uid : Z) (t : table) :
  exists older,
    filter (λ r, user_id r = uid) (rows t) ≡ₚ select_rows uid t ++ older
    /\ List.length (select_rows uid t)
       = (10 `min` List.length (filter (λ r, user_id r = uid) (rows t)))%nat
    /\ forall a b, a ∈ select_rows uid t -> b ∈ older ->
         created_at b <= created_at a.
Proof.
  unfold select_rows.
  set (mine := filter (λ r, user_id r = uid) (rows t)).
  exists (drop 10 (order_by_created_at_desc mine)). split; [|split].
  - by rewrite take_drop, order_by_perm.
  - by rewrite length_take, (Permutation_length (order_by_perm mine)).
  - intros a b Ha Hb.
    apply (sorted_app_pairs newer_first
             (take 10 (order_by_created_at_desc mine))
             (drop 10 (order_by_created_at_desc mine))); [|done|done].
    rewrite take_drop. apply order_by_sorted.
Qed.

Lemma select_rows_nil uid t :
  select_rows uid t = [] <-> forall r, r ∈ rows t -> user_id r <> uid.
Proof.
  unfold select_rows. split.
  - intros Hnil r Hr Huid.
    assert (r ∈ order_by_created_at_desc
                  (filter (λ r, user_id r = uid) (rows t))) as Hin.
    { apply order_by_elem, list_elem_of_filter. done. }
    destruct (order_by_created_at_desc _) as [|x l]; [|discriminate Hnil].
    by apply elem_of_nil in Hin.
  - intros Hnone.
    destruct (order_by_created_at_desc _) as [|x l] eqn:Hs; [done|].
    exfalso.
    assert (x ∈ order_by_created_at_desc
                  (filter (λ r, user_id r = uid) (rows t))) as Hin.
    { rewrite Hs. apply elem_of_cons. by left. }
    apply (proj1 (order_by_elem _ _)) in Hin.
    apply list_elem_of_filter in Hin as [Huid Hin]. by apply (Hnone x).
Qed.

(** X13. [history] answers that the history is empty exactly when the table
    holds no row of the user who asks, whatever the other users have
    written. *)
Theorem history_empty_iff_no_own_row (E : env) (update : Update) (st : state) :
  sqlite_fails E = false ->
  (forall r, r ∈ rows (db st) -> user_id r <> User.id (effective_user update))
  <-> history E update st =
        (Ret tt, with_trace st [reply_text [Lit "📭 История пуста"] None false]).
Proof.
  intros Hok. rewrite (history_run E update st Hok).
  rewrite <- select_rows_nil.
  destruct (select_rows _ (db st)) as [|r l]; split; try done.
  unfold with_trace. intros [= H]. apply app_inv_head in H. discriminate H.
Qed.

Lemma history_empty_iff_no_own_row_witness :
  sqlite_fails sugar = false
  /\ history sugar (command_message bob "history")
       {| user_data := ∅; db := w_db analyzed; files := ∅; trace := [] |} =
       (Ret tt,
        {| user_data := ∅; db := w_db analyzed; files := ∅;
           trace := [reply_text [Lit "📭 История пуста"] None false] |}).
Proof.
  split; [reflexivity|].
  apply (proj1 (history_empty_iff_no_own_row sugar
                  (command_message bob "history")
                  {| user_data := ∅; db := w_db analyzed; files := ∅;
                     trace := [] |} eq_refl)).
  intros r Hr. vm_compute in Hr.
  apply elem_of_cons in Hr as [->|Hr]; [discriminate|].
  by apply elem_of_nil in Hr.
Defined.

Lemma order_by_snoc_newest l r :
  (forall x, x ∈ l -> created_at x < created_at r) ->
  order_by_created_at_desc (l ++ [r]) = r :: order_by_created_at_desc l.
Proof.
  induction l as [|x l IH]; intros Hnew; simpl; [done|].
  rewrite IH.
  - simpl. assert (created_at x < created_at r) as Hx.
    { apply Hnew, elem_of_cons. by left. }
    apply Z.leb_gt in Hx. by rewrite Hx.
  - intros y Hy. apply Hnew, elem_of_cons. by right.
Qed.

(** X14. A row written for a user at a time later than all of that user's
    rows is the first of the user's next listing. *)
Theorem newest_write_is_listed_first
    (now uid : Z) (p : sqlval * sqlval * sqlval * sqlval * sqlval * sqlval)
    (t : table) :
  (forall r, r ∈ rows t -> user_id r = uid -> created_at r < now) ->
  exists r rest,
    rows (insert_row now uid p t) = rows t ++ [r]
    /\ select_rows uid (insert_row now uid p t) = r :: rest.
Proof.
  intros Hnew.
  destruct (insert_row_new now uid p t) as (r & Hrows & _ & _ & Huid & Hnow).
  exists r. unfold select_rows. rewrite Hrows, filter_app.
  rewrite (filter_cons_True _ r []) by done. rewrite filter_nil.
  rewrite order_by_snoc_newest.
  - eexists. split; [done|]. reflexivity.
  - intros x Hx. apply list_elem_of_filter in Hx as [Hx1 Hx2].
    rewrite Hnow. by apply Hnew.
Qed.

Lemma newest_write_is_listed_first_witness :
  exists r rest,
    rows (insert_row 1730000500 7
            (SqlText "alice", SqlText "Tea", SqlText "Tea leaves",
             SqlText "fine", SqlText "safe", SqlNull) (w_db taking_turns))
    = rows (w_db taking_turns) ++ [r]
    /\ select_rows 7
         (insert_row 1730000500 7
            (SqlText "alice", SqlText "Tea", SqlText "Tea leaves",
             SqlText "fine", SqlText "safe", SqlNull) (w_db taking_turns))
       = r :: rest.
Proof.
  apply newest_write_is_listed_first.
  intros r Hr Huid. vm_compute in Hr.
  repeat (apply elem_of_cons in Hr as [->|Hr]; [by vm_compute|]).
  by apply elem_of_nil in Hr.
Defined.

(** ** The buttons *)

(** X15. The glyph shown for a risk level is the green mark only for [safe],
    the warning sign only for [moderate] and the red disc only for [high];
    every other value that can be looked up, a missing one included, gets the
    question mark. The glyph of a history line follows the same table. *)
Theorem glyph_follows_risk_level (v : pyval) (glyph : string) :
  risk_emoji v = Ret glyph ->
  (glyph = "✅" <-> v = PyStr "safe")
  /\ (glyph = "⚠️" <-> v = PyStr "moderate")
  /\ (glyph = "🔴" <-> v = PyStr "high")
  /\ (glyph = "❓"
      <-> v <> PyStr "safe" /\ v <> PyStr "moderate" /\ v <> PyStr "high").
Proof.
  destruct v as [|b|n|f|s|l|d]; simpl; try discriminate;
    try (intros [= <-]; repeat split; try discriminate;
         intros; discriminate).
  intros [= <-]. unfold risk_table.
  destruct (String.eqb s "safe") eqn:H1.
  { apply String.eqb_eq in H1 as ->. repeat split; try discriminate; try done.
    by intros [? _]. }
  destruct (String.eqb s "moderate") eqn:H2.
  { apply String.eqb_eq in H2 as ->. repeat split; try discriminate; try done.
    by intros (_ & ? & _). }
  destruct (String.eqb s "high") eqn:H3.
  { apply String.eqb_eq in H3 as ->. repeat split; try discriminate; try done.
    by intros (_ & _ & ?). }
  apply String.eqb_neq in H1, H2, H3.
  repeat split; try discriminate; try congruence.
Qed.

Lemma glyph_follows_risk_level_witness :
  risk_emoji (PyStr "Safe") = Ret "❓"
  /\ PyStr "Safe" <> PyStr "safe".
Proof.
  split; [reflexivity|].
  exact (proj1 (proj1 (proj2 (proj2 (proj2
           (glyph_follows_risk_level (PyStr "Safe") "❓" eq_refl))))
           eq_refl)).
Defined.

(** X16. A press whose [callback_data] is none of [analyze], [recipes],
    [back_to_analysis], [cancel] is answered and nothing else happens: no
    message is edited. This is the case of [edit], which the keyboard sent
    after a recognition offers. *)
Theorem unhandled_button_only_answers
    (E : env) (user : User.t) (data : string) (st : state) :
  data ∉ ["analyze"; "recipes"; "back_to_analysis"; "cancel"] ->
  button_callback E (callback_query user data) st
  = (Ret tt, with_trace st [answer]).
Proof.
  intros Hnot.
  assert (forall k, k ∈ ["analyze"; "recipes"; "back_to_analysis"; "cancel"] ->
                    String.eqb data k = false) as Hk.
  { intros k Hin. apply String.eqb_neq. by intros ->. }
  rewrite other_button_run; [| apply Hk; set_solver ..].
  rewrite Hk; [done | set_solver].
Qed.

Lemma unhandled_button_only_answers_witness :
  "edit" ∈ (callback_data <$> mjoin photo_keyboard)
  /\ ("edit" ∉ ["analyze"; "recipes"; "back_to_analysis"; "cancel"])
  /\ button_callback sugar (callback_query alice "edit") photo_taken
     = (Ret tt, with_trace photo_taken [answer]).
Proof.
  assert (Hnot : "edit" ∉ ["analyze"; "recipes"; "back_to_analysis";
                           "cancel"]).
  { rewrite !elem_of_cons, elem_of_nil. intros [H|[H|[H|[H|[]]]]];
      discriminate. }
  split.
  { simpl. apply elem_of_cons. right. apply elem_of_cons. by left. }
  split; [exact Hnot|].
  exact (unhandled_button_only_answers sugar alice "edit" photo_taken Hnot).
Defined.

Section CommandText.

#[local] Arguments String.append !_ _ / : simpl nomatch.

Lemma split_at_sign_plain s :
  contains "@" s = false -> split_at_sign s = [s].
Proof.
  induction s as [|a s IH]; [done|]. simpl.
  destruct (Ascii.eqb a "@"); [done|]. simpl. intros Hs.
  by rewrite (IH Hs).
Qed.

Lemma split_at_sign_app name rest :
  contains "@" name = false ->
  split_at_sign (name +:+ "@" +:+ rest) = name :: split_at_sign rest.
Proof.
  change ("@" +:+ rest) with (String "@" rest).
  induction name as [|a name IH]; [done|]. simpl.
  destruct (Ascii.eqb a "@"); [done|]. simpl. intros Hs.
  by rewrite (IH Hs).
Qed.

Lemma split_at_sign_cons s : exists head parts, split_at_sign s = head :: parts.
Proof.
  induction s as [|a s (head & parts & IH)]; simpl; [eauto|].
  destruct (Ascii.eqb a "@"); [eauto|]. rewrite IH. eauto.
Qed.

Lemma command_parts_plain name bot :
  contains "@" name = false -> command_parts name bot = (name, bot).
Proof.
  intros Hs. unfold command_parts. by rewrite split_at_sign_plain.
Qed.

Lemma command_parts_name name rest bot :
  contains "@" name = false ->
  (command_parts (name +:+ "@" +:+ rest) bot).1 = name.
Proof.
  intros Hs. unfold command_parts. rewrite split_at_sign_app by done.
  by destruct (split_at_sign_cons rest) as (head & parts & ->).
Qed.

Lemma command_parts_addressed name other bot :
  contains "@" name = false -> contains "@" other = false ->
  command_parts (name +:+ "@" +:+ other) bot = (name, other).
Proof.
  intros Hs Ho. unfold command_parts. rewrite split_at_sign_app by done.
  by rewrite split_at_sign_plain.
Qed.

End CommandText.

(** A command that [main] registers reaches its handler, which does not look
    at how the command was typed. *)
Lemma registered_command_run E user c name w :
  name ∈ ["start"; "help"; "history"] ->
  py_lower (command_parts c (bot_username E)).1 = name ->
  py_lower (command_parts c (bot_username E)).2 = py_lower (bot_username E) ->
  process_update E (command_message user c) w
  = process_update E (command_message user name) w.
Proof.
  intros Hin Hname Hbot. unfold process_update.
  rewrite !dispatch_command. cbv zeta. rewrite Hname, Hbot.
  rewrite !elem_of_cons, elem_of_nil in Hin.
  destruct Hin as [->|[->|[->|[]]]];
    rewrite command_parts_plain by done; cbn [fst snd];
    rewrite String.eqb_refl; reflexivity.
Qed.

Lemma unregistered_command_run E user c w :
  py_lower (command_parts c (bot_username E)).1 ∉ ["start"; "help"; "history"]
  \/ py_lower (command_parts c (bot_username E)).2
     <> py_lower (bot_username E) ->
  process_update E (command_message user c) w = w.
Proof.
  intros Hnot. unfold process_update. rewrite dispatch_command. cbv zeta.
  destruct Hnot as [Hnot|Hnot].
  - assert (forall k, k ∈ ["start"; "help"; "history"] ->
              String.eqb (py_lower (command_parts c (bot_username E)).1) k
              = false) as Hk.
    { intros k Hin. apply String.eqb_neq. by intros <-. }
    rewrite !Hk by set_solver. by destruct (String.eqb _ _).
  - apply String.eqb_neq in Hnot. by rewrite Hnot.
Qed.

(** X17. A command is matched by its name in lower case, and by the bot it is
    addressed to when it names one. A command whose name is not [start],
    [help] or [history] in any spelling, or that is addressed to another bot
    (usernames being ASCII), reaches no handler, and neither does a message that is neither a command
    nor a photo: the bot is left exactly as it was and nothing is sent. A
    registered command typed in another case, or addressed to this bot by
    name, is handled as the plain command is. *)
Theorem unregistered_updates_are_dropped (E : env) (w : world) :
  (forall user name suffix,
     contains "@" name = false ->
     py_lower name ∉ ["start"; "help"; "history"] ->
     process_update E (command_message user name) w = w
     /\ process_update E (command_message user (name +:+ "@" +:+ suffix)) w
        = w)
  /\ (forall user name other,
        contains "@" name = false -> contains "@" other = false ->
        ascii_text other = true -> ascii_text (bot_username E) = true ->
        py_lower other <> py_lower (bot_username E) ->
        process_update E (command_message user (name +:+ "@" +:+ other)) w
        = w)
  /\ (forall user name me,
        contains "@" name = false -> contains "@" me = false ->
        py_lower name ∈ ["start"; "help"; "history"] ->
        py_lower me = py_lower (bot_username E) ->
        process_update E (command_message user name) w
        = process_update E (command_message user (py_lower name)) w
        /\ process_update E (command_message user (name +:+ "@" +:+ me)) w
           = process_update E (command_message user (py_lower name)) w)
  /\ (forall user, process_update E (other_message user) w = w).
Proof.
  split; [|split; [|split; [|done]]].
  - intros user name suffix Hname Hnot. split.
    + apply unregistered_command_run. left.
      by rewrite command_parts_plain.
    + apply unregistered_command_run. left.
      by rewrite command_parts_name.
  - intros user name other Hname Hother _ _ Hne.
    apply unregistered_command_run. right.
    by rewrite command_parts_addressed.
  - intros user name me Hname Hme Hin Hbot. split.
    + apply registered_command_run; [done|..];
        by rewrite command_parts_plain.
    + apply registered_command_run; [done|..];
        by rewrite command_parts_addressed.
Qed.

Lemma unregistered_updates_are_dropped_witness :
  (py_lower "Settings" ∉ ["start"; "help"; "history"])
  /\ process_update sugar (command_message alice "Settings") analyzed
     = analyzed
  /\ py_lower "OtherBot" <> py_lower (bot_username sugar)
  /\ process_update sugar (command_message alice "history@OtherBot") analyzed
     = analyzed
  /\ py_lower "HISTORY" ∈ ["start"; "help"; "history"]
  /\ py_lower "labelspybot" = py_lower (bot_username sugar)
  /\ process_update sugar (command_message alice "HISTORY") analyzed
     = process_update sugar (command_message alice "history") analyzed
  /\ process_update sugar (command_message alice "HISTORY@labelspybot")
       analyzed
     = process_update sugar (command_message alice "history") analyzed
  /\ process_update sugar (command_message alice "history") analyzed
     <> analyzed.
Proof.
  assert (Hnot : py_lower "Settings" ∉ ["start"; "help"; "history"]).
  { rewrite !elem_of_cons, elem_of_nil. intros [H|[H|[H|[]]]]; discriminate. }
  assert (Hother : py_lower "OtherBot" <> py_lower (bot_username sugar)).
  { discriminate. }
  assert (Hin : py_lower "HISTORY" ∈ ["start"; "help"; "history"]).
  { rewrite !elem_of_cons. right. right. by left. }
  destruct (unregistered_updates_are_dropped sugar analyzed)
    as (Hdrop & Haddr & Hcase & _).
  split; [exact Hnot|].
  split; [exact (proj1 (Hdrop alice "Settings" "" eq_refl Hnot))|].
  split; [exact Hother|].
  split; [exact (Haddr alice "history" "OtherBot" eq_refl eq_refl eq_refl
                   eq_refl Hother)|].
  split; [exact Hin|]. split; [reflexivity|].
  split; [exact (proj1 (Hcase alice "HISTORY" "labelspybot" eq_refl eq_refl
                          Hin eq_refl))|].
  split; [exact (proj2 (Hcase alice "HISTORY" "labelspybot" eq_refl eq_refl
                          Hin eq_refl))|].
  intros H. apply (f_equal (λ w, List.length (w_trace w))) in H.
  vm_compute in H. discriminate H.
Defined.

(** X18. Only the [analyze] button writes: a press on any other button leaves
    the session, the table and the files as they were, whatever the provider
    answers. *)
Theorem other_buttons_write_nothing
    (E : env) (user : User.t) (data : string) (st : state) :
  data <> "analyze" ->
  let st' := (button_callback E (callback_query user data) st).2 in
  user_data st' = user_data st /\ db st' = db st /\ files st' = files st.
Proof.
  intros Hne st'. subst st'.
  destruct (button_callback_step E (callback_query user data) st)
    as [Hfiles [[Hud Hdb]|(user' & c & p & Heq & _)]]; [done|].
  by injection Heq as _ ->.
Qed.

Lemma other_buttons_write_nothing_witness :
  "recipes" <> "analyze"
  /\ user_data (button_callback sugar (callback_query alice "recipes")
                  photo_taken).2 = user_data photo_taken
  /\ db (button_callback sugar (callback_query alice "recipes")
           photo_taken).2 = db photo_taken.
Proof.
  assert (Hne : "recipes" <> "analyze") by discriminate.
  destruct (other_buttons_write_nothing sugar alice "recipes" photo_taken Hne)
    as (H1 & H2 & _).
  split; [exact Hne|]. split; [exact H1 | exact H2].
Defined.

(** X19. After an analysis has been presented, [back_to_analysis] shows the
    glyph, the product name and the verdict that opened that presentation. *)
Theorem back_after_analyze_shows_same_header
    (E E' : env) (user : User.t) (st : state) (composition analysis : pyval)
    (params : sqlval * sqlval * sqlval * sqlval * sqlval * sqlval)
    (response : fstring) :
  user_data st !! "last_composition" = Some composition ->
  py_truthy composition = true ->
  gemini_exchange E (prompt_of composition "analyze") = Ret analysis ->
  py_truthy analysis = true ->
  insert_params E user composition analysis = Ret params ->
  sqlite_fails E = false ->
  format_analysis analysis = Ret response ->
  exists glyph product verd tail st1,
    button_callback E (callback_query user "analyze") st = (Ret tt, st1)
    /\ response
       = Lit "**" :: Lit glyph :: Lit " " :: Fmt product
         :: Lit ("**" +:+ LF +:+ LF +:+ "**Вердикт:** ") :: Fmt verd :: tail
    /\ button_callback E' (callback_query user "back_to_analysis") st1
       = (Ret tt,
          with_trace st1
            [answer;
             edit_message_text (back_text glyph product verd)
               (Some analysis_keyboard) true]).
Proof.
  intros Hcomp Htc Hex Hta Hparams Hok Hfmt.
  rewrite (analyze_run E user st composition Hcomp Htc).
  rewrite Hex. cbn [caught logged]. rewrite Hta, Hparams, Hok, Hfmt.
  destruct analysis as [| | | | | |d]; try discriminate Hfmt.
  unfold format_analysis in Hfmt. simpl in Hfmt.
  unfold mbind, outcome_bind in Hfmt.
  destruct (risk_emoji (default PyNone (assoc_get d "riskLevel")))
    as [glyph|] eqn:Hglyph; [|discriminate Hfmt].
  invert_binds Hfmt. injection Hfmt as <-.
  eexists glyph, _, _, _, _. split; [reflexivity|]. split; [reflexivity|].
  rewrite back_run. cbn [user_data]. rewrite lookup_insert_eq.
  unfold format_back. simpl. rewrite Hglyph. reflexivity.
Qed.

Lemma back_after_analyze_shows_same_header_witness :
  exists st1,
    button_callback sugar (callback_query alice "analyze") photo_taken
      = (Ret tt, st1)
    /\ button_callback salt (callback_query alice "back_to_analysis") st1
       = (Ret tt,
          with_trace st1
            [answer;
             edit_message_text (back_text "❓" (PyStr "Snack") (PyStr "ok"))
               (Some analysis_keyboard) true]).
Proof.
  destruct (back_after_analyze_shows_same_header sugar salt alice photo_taken
              (PyStr "Sugar") snack _ _
              eq_refl eq_refl eq_refl eq_refl eq_refl eq_refl eq_refl)
    as (glyph & product & verd & tail & st1 & H1 & H2 & H3).
  injection H2 as <- <- <- _.
  exists st1. split; [exact H1 | exact H3].
Defined.

(** X20. Of the recipes the provider returns only the first three are read
    and shown, numbered from 1: whatever follows them in the list has no
    effect, not even when it is malformed. *)
Theorem recipes_beyond_third_are_ignored
    (E : env) (user : User.t) (st : state) (d : list (string * pyval))
    (items extra : list pyval) (response : fstring) :
  let prompt :=
    prompt_of (default PyNone (user_data st !! "last_composition")) "recipes"
  in
  gemini_exchange E prompt = Ret (PyDict d) ->
  assoc_get d "recipes" = Some (PyList (items ++ extra)) ->
  List.length items = 3%nat ->
  format_recipes 1 items recipes_heading = Ret response ->
  button_callback E (callback_query user "recipes") st =
    (Ret tt,
     with_trace st
       [answer;
        edit_message_text [Lit "👨‍🍳 Генерирую рецепты..."] None false;
        gemini_request prompt;
        edit_message_text response (Some recipes_keyboard) true]).
Proof.
  intros prompt Hex Hrecipes Hlen Hfmt.
  unfold button_callback. run_monad.
  rewrite analyze_with_gemini_run. fold prompt. rewrite Hex.
  cbn [caught logged].
  assert (py_truthy (PyDict d) = true) as Hd.
  { destruct d; [discriminate Hrecipes|done]. }
  rewrite Hd. run_monad. rewrite Hrecipes.
  destruct items as [|r1 [|r2 [|r3 [|r4 items]]]]; try discriminate Hlen.
  run_monad. cbn [py_truthy negb]. run_monad.
  rewrite take_0. fold recipes_heading. rewrite Hfmt.
  rewrite <- !app_assoc. reflexivity.
Qed.

Lemma recipes_beyond_third_are_ignored_witness :
  exists response,
    format_recipes 1
      [PyDict [("name", PyStr "Tea")]; PyDict [("name", PyStr "Pie")];
       PyDict [("name", PyStr "Jam")]] recipes_heading = Ret response
    /\ button_callback (replying four_recipes) (callback_query alice "recipes")
         photo_taken =
         (Ret tt,
          with_trace photo_taken
            [answer;
             edit_message_text [Lit "👨‍🍳 Генерирую рецепты..."] None false;
             gemini_request (prompt_of (PyStr "Sugar") "recipes");
             edit_message_text response (Some recipes_keyboard) true]).
Proof.
  eexists. split; [reflexivity|].
  exact (recipes_beyond_third_are_ignored (replying four_recipes) alice
           photo_taken _
           [PyDict [("name", PyStr "Tea")]; PyDict [("name", PyStr "Pie")];
            PyDict [("name", PyStr "Jam")]] [PyInt 4] _
           eq_refl eq_refl eq_refl eq_refl).
Defined.

(** ** What is stored and when *)

(** X21. When a value of the analysis cannot be stored (a list or an object
    as product name, verdict or risk level, or an integer beyond 64 bits), the
    [analyze] branch raises before anything is written: the table and the
    session stay as they were and nothing is presented after the progress
    notice. *)
Theorem unstorable_analysis_writes_nothing
    (E : env) (user : User.t) (st : state) (composition analysis : pyval)
    (e : exn) :
  user_data st !! "last_composition" = Some composition ->
  py_truthy composition = true ->
  gemini_exchange E (prompt_of composition "analyze") = Ret analysis ->
  py_truthy analysis = true ->
  insert_params E user composition analysis = Raise e ->
  button_callback E (callback_query user "analyze") st =
    (Raise e,
     with_trace st
       [answer;
        edit_message_text [Lit "🤖 Анализирую с Gemini..."] None false;
        gemini_request (prompt_of composition "analyze")]).
Proof.
  intros Hcomp Htc Hex Hta Hparams.
  rewrite (analyze_run E user st composition Hcomp Htc).
  rewrite Hex. cbn [caught logged]. rewrite Hta, Hparams.
  by rewrite app_nil_r.
Qed.

Lemma unstorable_analysis_writes_nothing_witness :
  insert_params (replying odd_risk) alice (PyStr "Sugar") odd_risk
    = Raise SqliteError
  /\ button_callback (replying odd_risk) (callback_query alice "analyze")
       photo_taken =
       (Raise SqliteError,
        with_trace photo_taken
          [answer;
           edit_message_text [Lit "🤖 Анализирую с Gemini..."] None false;
           gemini_request (prompt_of (PyStr "Sugar") "analyze")]).
Proof.
  split; [reflexivity|].
  exact (unstorable_analysis_writes_nothing (replying odd_risk) alice
           photo_taken (PyStr "Sugar") odd_risk SqliteError
           eq_refl eq_refl eq_refl eq_refl eq_refl).
Defined.

(** X22. The row is written before the response is composed: when composing
    fails (highlights or allergens that are not a sequence of strings,
    features that cannot be iterated, an unhashable risk level), the history
    has the new row, yet nothing is presented and the analysis is not kept in
    the session. *)
Theorem unpresentable_analysis_is_still_stored
    (E : env) (user : User.t) (st : state) (composition analysis : pyval)
    (params : sqlval * sqlval * sqlval * sqlval * sqlval * sqlval) (e : exn) :
  user_data st !! "last_composition" = Some composition ->
  py_truthy composition = true ->
  gemini_exchange E (prompt_of composition "analyze") = Ret analysis ->
  py_truthy analysis = true ->
  insert_params E user composition analysis = Ret params ->
  sqlite_fails E = false ->
  format_analysis analysis = Raise e ->
  button_callback E (callback_query user "analyze") st =
    (Raise e,
     {| user_data := user_data st;
        db := insert_row (current_timestamp E) (User.id user) params (db st);
        files := files st;
        trace := trace st ++
          [answer;
           edit_message_text [Lit "🤖 Анализирую с Gemini..."] None false;
           gemini_request (prompt_of composition "analyze")] |}).
Proof.
  intros Hcomp Htc Hex Hta Hparams Hok Hfmt.
  rewrite (analyze_run E user st composition Hcomp Htc).
  rewrite Hex. cbn [caught logged]. rewrite Hta, Hparams, Hok, Hfmt.
  by rewrite app_nil_r.
Qed.

Lemma unpresentable_analysis_is_still_stored_witness :
  format_analysis odd_highlights = Raise TypeError
  /\ exists params,
       insert_params (replying odd_highlights) alice (PyStr "Sugar")
         odd_highlights = Ret params
       /\ button_callback (replying odd_highlights)
            (callback_query alice "analyze") photo_taken =
            (Raise TypeError,
             {| user_data := user_data photo_taken;
                db := insert_row 1730000000 7 params (db photo_taken);
                files := files photo_taken;
                trace := trace photo_taken ++
                  [answer;
                   edit_message_text [Lit "🤖 Анализирую с Gemini..."] None
                     false;
                   gemini_request (prompt_of (PyStr "Sugar") "analyze")] |}).
Proof.
  split; [reflexivity|]. eexists. split; [reflexivity|].
  exact (unpresentable_analysis_is_still_stored (replying odd_highlights)
           alice photo_taken (PyStr "Sugar") odd_highlights _ TypeError
           eq_refl eq_refl eq_refl eq_refl eq_refl eq_refl eq_refl).
Defined.

(** X23. What the row holds for a recognized text [s] and an analysis object:
    the user name is the Telegram user name, or [unknown] when there is none
    or it is empty, so it is never empty; the composition is the first 500
    characters of [s]; the JSON column is [json.dumps] of the whole analysis;
    a missing product name or verdict is stored as [?]. *)
Theorem stored_row_fields
    (E : env) (user : User.t) (s : string) (d : list (string * pyval))
    (uname product comp verd risk dumped : sqlval) :
  insert_params E user (PyStr s) (PyDict d)
    = Ret (uname, product, comp, verd, risk, dumped) ->
  uname = SqlText (username_or_unknown user)
  /\ username_or_unknown user <> EmptyString
  /\ (User.username user = None -> username_or_unknown user = "unknown")
  /\ comp = SqlText (py_prefix 500 s)
  /\ (py_len (py_prefix 500 s) <= 500)%nat
  /\ (exists rest, s = py_prefix 500 s +:+ rest)
  /\ ((py_len s <= 500)%nat -> comp = SqlText s)
  /\ dumped = SqlText (json_dumps E (PyDict d))
  /\ (assoc_get d "productName" = None -> product = SqlText "?")
  /\ (assoc_get d "verdict" = None -> verd = SqlText "?").
Proof.
  intros Hparams.
  apply insert_params_inv in Hparams
    as (excerpt & [= <-] & -> & Hx & Hcomp & Hx0 & _ & ->).
  apply sqlite_bind_str in Hcomp as [-> _].
  split; [done|]. split.
  { unfold username_or_unknown. destruct (User.username user) as [n|]; [|done].
    destruct (String.eqb n EmptyString) eqn:Hn; [done|].
    by apply String.eqb_neq in Hn. }
  split.
  { unfold username_or_unknown. by intros ->. }
  split; [done|]. split.
  { rewrite py_len_prefix. lia. }
  split; [apply py_prefix_is_prefix|]. split.
  { intros Hlen. by rewrite py_prefix_all. }
  split; [done|]. split.
  - intros Hnone. rewrite Hnone in Hx. by injection Hx as <-.
  - intros Hnone. rewrite Hnone in Hx0. by injection Hx0 as <-.
Qed.

Lemma stored_row_fields_witness :
  insert_params sugar bob (PyStr "Sugar") (PyDict [("riskLevel", PyStr "high")])
    = Ret (SqlText "unknown", SqlText "?", SqlText "Sugar", SqlText "?",
           SqlText "high", SqlText snack_text)
  /\ SqlText "unknown" = SqlText (username_or_unknown bob)
  /\ username_or_unknown bob <> EmptyString.
Proof.
  split; [reflexivity|].
  destruct (stored_row_fields sugar bob "Sugar" [("riskLevel", PyStr "high")]
              _ _ _ _ _ _ eq_refl) as (H1 & H2 & _).
  split; [exact H1 | exact H2].
Defined.

(** ** Sessions of different users *)

Lemma handle_photo_session_local E update st :
  user_data (handle_photo E update st).2
  = user_data (handle_photo E update (only_session st)).2.
Proof.
  destruct (download_to_drive E) as [bytes|e] eqn:Hdl.
  - destruct (py_truthy (caught (vision_exchange E bytes))) eqn:Htruthy.
    + destruct (vision_exchange_shape E bytes) as [Hnone|[s Hs]].
      { rewrite Hnone in Htruthy. discriminate. }
      rewrite Hs in Htruthy. apply caught_str_inv in Hs.
      assert (s <> EmptyString) as Hne.
      { intros ->. discriminate. }
      by rewrite !(handle_photo_recognized E update _ bytes s Hdl Hs Hne).
    + by rewrite !(handle_photo_not_recognized E update _ bytes Hdl Htruthy).
  - by rewrite !(handle_photo_download_fails E update _ e Hdl).
Qed.

Lemma button_callback_session_local E update st :
  user_data (button_callback E update st).2
  = user_data (button_callback E update (only_session st)).2.
Proof.
  destruct update as [user c|user|user data|user]; try reflexivity.
  destruct (String.eqb data "analyze") eqn:H1.
  - apply String.eqb_eq in H1 as ->.
    destruct (py_truthy (default PyNone (user_data st !! "last_composition")))
      eqn:Htruthy.
    + destruct (truthy_lookup _ _ Htruthy) as (composition & Hcomp & Htc).
      rewrite (analyze_run E user st composition Hcomp Htc).
      rewrite (analyze_run E user (only_session st) composition Hcomp Htc).
      destruct (py_truthy (caught _)); [|done].
      destruct (insert_params E user composition _); [|done].
      destruct (sqlite_fails E); [done|].
      destruct (format_analysis _); done.
    + rewrite (analyze_no_text E user st Htruthy).
      by rewrite (analyze_no_text E user (only_session st) Htruthy).
  - assert (data <> "analyze") as Hne by by apply String.eqb_neq.
    destruct (button_callback_step E (callback_query user data) st)
      as [_ [[-> _]|(u & c & p & Heq & _)]];
      [|by injection Heq as _ ->].
    destruct (button_callback_step E (callback_query user data)
                (only_session st))
      as [_ [[-> _]|(u & c & p & Heq & _)]];
      [done|by injection Heq as _ ->].
Qed.

Lemma history_session E update st :
  user_data (history E update st).2 = user_data st.
Proof.
  unfold history, db_read, mbind, M_bind.
  destruct (sqlite_fails E); [reflexivity|].
  destruct (select_columns <$> _); reflexivity.
Qed.

(** The session a user has after an update of theirs depends on the session
    they had before and on the outside world, not on the rest of the bot. *)
Lemma process_update_session_local E update w1 w2 :
  let uid := User.id (effective_user update) in
  session_of w1 uid = session_of w2 uid ->
  session_of (process_update E update w1) uid
  = session_of (process_update E update w2) uid.
Proof.
  intros uid Heq. unfold process_update. fold uid.
  destruct update as [user c|user|user data|user].
  - pose proof (dispatch_command_cases E user c) as Hd.
    rewrite !elem_of_cons, elem_of_nil in Hd.
    destruct Hd as [->|[->|[->|[->|[]]]]];
      [done | by rewrite !session_of_written ..|].
    by rewrite !session_of_written, !history_session.
  - cbn [dispatch main check_update]. rewrite !session_of_written.
    rewrite handle_photo_session_local.
    rewrite (handle_photo_session_local E _
               {| user_data := session_of w2 uid; db := w_db w2;
                  files := w_files w2; trace := w_trace w2 |}).
    unfold only_session. cbn [user_data]. by rewrite Heq.
  - cbn [dispatch main check_update]. rewrite !session_of_written.
    rewrite button_callback_session_local.
    rewrite (button_callback_session_local E _
               {| user_data := session_of w2 uid; db := w_db w2;
                  files := w_files w2; trace := w_trace w2 |}).
    unfold only_session. cbn [user_data]. by rewrite Heq.
  - done.
Qed.

Lemma process_update_other_session E update w uid :
  User.id (effective_user update) <> uid ->
  session_of (process_update E update w) uid = session_of w uid.
Proof.
  intros Hne. unfold process_update.
  destruct (dispatch E main update) as [cb|]; [|done].
  unfold session_of. cbn [sessions]. by rewrite lookup_insert_ne.
Qed.

Lemma run_session_local uid events w1 w2 :
  session_of w1 uid = session_of w2 uid ->
  session_of (run events w1) uid
  = session_of (run (filter (from_user uid) events) w2) uid.
Proof.
  revert w1 w2. induction events as [|[E update] events IH];
    intros w1 w2 Heq; [done|].
  destruct (decide (from_user uid (E, update))) as [Hfrom|Hother].
  - rewrite filter_cons_True by done. simpl. apply IH.
    unfold from_user in Hfrom. simpl in Hfrom. subst uid.
    by apply process_update_session_local.
  - rewrite filter_cons_False by done. simpl. apply IH.
    by rewrite process_update_other_session.
Qed.

(** X24. The sessions of different users do not interfere: after any run of
    the bot, the session of a user is what it would be had only that user's
    updates been handled, with the same answers of the outside world. *)
Theorem sessions_do_not_interfere
    (uid : Z) (events : list (env * Update)) (w : world) :
  session_of (run events w) uid
  = session_of (run (filter (from_user uid) events) w) uid.
Proof. by apply run_session_local. Qed.
